(** * clawdy-today: the task proxy, its mock fallback and the stream simulator

    A shallow embedding of [app/main.py]: the mock response generator, the
    two task handlers ([POST /task], [POST /task/send]) and the generator
    behind [GET /stream], followed by the properties the specification
    states about them. *)

From Stdlib Require Import ZArith NArith Ascii String Lia.
From stdpp Require Import base decidable option list.

Local Open Scope Z_scope.

(** ** Python values *)

(** A Python [str] is a sequence of Unicode code points. *)
Abbreviation pystr := (list N).

(** String literals of the source are written as Rocq strings (UTF-8 bytes)
    and decoded to code points. *)
Fixpoint utf8_decode (bs : list N) : pystr :=
  match bs with
  | [] => []
  | b0 :: r0 =>
    if (b0 <? 128)%N then b0 :: utf8_decode r0
    else if (b0 <? 224)%N then
      match r0 with
      | b1 :: r1 => ((b0 mod 32) * 64 + b1 mod 64)%N :: utf8_decode r1
      | _ => []
      end
    else if (b0 <? 240)%N then
      match r0 with
      | b1 :: b2 :: r2 =>
        ((b0 mod 16) * 4096 + (b1 mod 64) * 64 + b2 mod 64)%N :: utf8_decode r2
      | _ => []
      end
    else
      match r0 with
      | b1 :: b2 :: b3 :: r3 =>
        ((b0 mod 8) * 262144 + (b1 mod 64) * 4096 + (b2 mod 64) * 64 + b3 mod 64)%N
          :: utf8_decode r3
      | _ => []
      end
  end.

Definition py (s : string) : pystr :=
  utf8_decode (map N_of_ascii (list_ascii_of_string s)).

(** The line feed, written [\n] in the source. *)
Definition nl : pystr := [10%N].

(** [str.isspace] on one code point, as [str.split()] uses it. *)
Definition isspace (c : N) : bool :=
  ((9 <=? c) && (c <=? 13) || (28 <=? c) && (c <=? 32)
   || (c =? 133) || (c =? 160) || (c =? 5760)
   || (8192 <=? c) && (c <=? 8202)
   || (c =? 8232) || (c =? 8233) || (c =? 8239) || (c =? 8287)
   || (c =? 12288))%N.

(** [s.split()]: the maximal runs of non-space code points; [cur] holds the
    run being read, reversed. *)
Fixpoint split_from (cur : pystr) (s : pystr) : list pystr :=
  match s with
  | [] => match cur with [] => [] | _ => [rev cur] end
  | c :: r =>
    if isspace c
    then match cur with [] => split_from [] r | _ => rev cur :: split_from [] r end
    else split_from (c :: cur) r
  end.

Definition split (s : pystr) : list pystr := split_from [] s.

(** What [json.load] and [response.json()] return, and what the handlers
    build: [None], [bool], [int], [float], [str], [list], [dict]. A [dict]
    keeps its items in insertion order. *)
#[warnings="-register-all"]
Inductive json : Type :=
| JNull
| JBool (b : bool)
| JInt (z : Z)
| JFloat (bits : N)
| JStr (s : pystr)
| JArr (items : list json)
| JObj (fields : list (pystr * json)).

Abbreviation pydict := (list (pystr * json)).

(** ** Exceptions *)

Inductive exn : Type :=
| RequestError        (* httpx.RequestError and its subclasses *)
| ConnectError        (* httpx.ConnectError *)
| TimeoutError        (* asyncio.TimeoutError *)
| KeyError
| IndexError
| TypeError
| AttributeError
| ValidationError     (* pydantic *)
| JSONDecodeError
| OtherError.

(** The outcome of a piece of Python code: a value, a raised
    [HTTPException(status_code, detail)], or another raised exception. *)
Inductive result (A : Type) : Type :=
| Return (a : A)
| HTTPException (status_code : Z) (detail : pystr)
| Raise (e : exn).

Arguments Return {A} a.
Arguments HTTPException {A} status_code detail.
Arguments Raise {A} e.

#[global] Instance result_ret : MRet result := fun A a => Return a.

#[global] Instance result_bind : MBind result := fun A B k m =>
  match m with
  | Return a => k a
  | HTTPException s d => HTTPException s d
  | Raise e => Raise e
  end.

(** [except (httpx.RequestError, httpx.ConnectError, asyncio.TimeoutError)] *)
Definition caught (e : exn) : bool :=
  match e with
  | RequestError | ConnectError | TimeoutError => true
  | _ => false
  end.

Definition try_except {A} (body : result A) (handler : result A) : result A :=
  match body with
  | Raise e => if caught e then handler else Raise e
  | r => r
  end.

(** ** Operations on Python values *)

Fixpoint lookup_key (k : pystr) (d : pydict) : option json :=
  match d with
  | [] => None
  | (k', v) :: d' => if decide (k = k') then Some v else lookup_key k d'
  end.

(** [o.get(k, default)]: only a [dict] has the method. *)
Definition py_get (o : json) (k : pystr) (default : json) : result json :=
  match o with
  | JObj d => Return (match lookup_key k d with Some v => v | None => default end)
  | _ => Raise AttributeError
  end.

(** [o[k]]: [KeyError] on a [dict] without the key; the other values do not
    take a [str] subscript. *)
Definition py_getitem (o : json) (k : pystr) : result json :=
  match o with
  | JObj d => match lookup_key k d with Some v => Return v | None => Raise KeyError end
  | _ => Raise TypeError
  end.

(** [a == b] where [b] is a [str]: only an equal [str] compares equal. *)
Definition py_eq_str (a : json) (b : pystr) : bool :=
  match a with
  | JStr s => bool_decide (s = b)
  | _ => false
  end.

(** The values a [for] over [o] visits: the items of a [list], the keys of a
    [dict], the characters of a [str]; the others are not iterable. *)
Definition py_iter (o : json) : result (list json) :=
  match o with
  | JArr l => Return l
  | JObj d => Return (map (fun kv => JStr (fst kv)) d)
  | JStr s => Return (map (fun c => JStr [c]) s)
  | _ => Raise TypeError
  end.

(** [[elt(x) for x in xs if cond(x)]] *)
Fixpoint comprehension (cond : json -> result bool) (elt : json -> result json)
    (xs : list json) : result (list json) :=
  match xs with
  | [] => Return []
  | x :: xs' =>
    c ← cond x;
    if c : bool
    then v ← elt x; vs ← comprehension cond elt xs'; Return (v :: vs)
    else comprehension cond elt xs'
  end.

(** [sep.join(xs)] of [str] items. *)
Fixpoint join (sep : pystr) (xs : list pystr) : pystr :=
  match xs with
  | [] => []
  | [x] => x
  | x :: xs' => x ++ sep ++ join sep xs'
  end.

Fixpoint all_str (xs : list json) : result (list pystr) :=
  match xs with
  | [] => Return []
  | JStr s :: xs' => ss ← all_str xs'; Return (s :: ss)
  | _ :: _ => Raise TypeError
  end.

(** [sep.join(xs)]: [TypeError] when an item is not a [str]. *)
Definition py_join (sep : pystr) (xs : list json) : result pystr :=
  ss ← all_str xs; Return (join sep ss).

(** ** The random module

    The generator is a sequence of draws; [random.choice] and
    [random.randint] each take the next one. *)
Definition rng : Type := nat -> nat.

Definition next_draw (g : rng) : nat * rng := (g O, fun n => g (S n)).

(** [random.choice(seq)]: [IndexError] on an empty sequence. *)
Definition choice {A} (seq : list A) (g : rng) : result (A * rng) :=
  let (r, g') := next_draw g in
  match seq !! (r mod length seq)%nat with
  | Some x => Return (x, g')
  | None => Raise IndexError
  end.

(** [random.randint(a, b)], both ends included. *)
Definition randint (a b : Z) (g : rng) : Z * rng :=
  let (r, g') := next_draw g in
  (a + Z.of_nat r mod (b - a + 1), g').

(** ** Mock responses *)

Definition MOCK_RESPONSES : list pystr :=
  [ py "Отличный вопрос! Вот краткое объяснение:";
    py "Это сложная тема, но я помогу тебе разобраться.";
    py "Позволь мне дать развернутый ответ на это.";
    py "Согласно лучшим практикам индустрии:";
    py "Вот пошаговое решение:";
    py "Это можно реализовать несколькими способами.";
    py "Давай разберемся в деталях этого вопроса.";
    py "Вот оптимальный подход к этой проблеме:";
    py "Основываясь на опыте, рекомендую:";
    py "Здесь важно обратить внимание на следующее:" ].

Definition generate_mock_response (task : pystr) (g : rng) : result (json * rng) :=
  '(response_text, g) ← choice MOCK_RESPONSES g;
  let '(offset, g) := randint 10 50 g in
  let input_tokens := Z.of_nat (length (split task)) + offset in
  let '(output_tokens, g) := randint 50 300 g in
  Return
    (JObj
       [ (py "model", JStr (py "claude-3-opus-20240229"));
         (py "content",
          JArr
            [ JObj
                [ (py "type", JStr (py "text"));
                  (py "text",
                   JStr (response_text ++ nl ++ nl ++ take 100 task
                         ++ py "..." ++ nl ++ nl ++ py "[AKIONE]")) ] ]);
         (py "usage",
          JObj
            [ (py "input_tokens", JInt input_tokens);
              (py "output_tokens", JInt output_tokens) ]) ],
     g).

(** ** HTTP schema *)

(** Field validation is pydantic's. The handlers rely on two facts only: a
    [str] is accepted for a [str] field and an [int] for an [int] field; what
    else a field accepts (and converts) is left to the instance. *)
Class Validator : Type := {
  validate_str : json -> option pystr;
  validate_int : json -> option Z;
  validate_str_JStr : forall s, validate_str (JStr s) = Some s;
  validate_int_JInt : forall z, validate_int (JInt z) = Some z
}.

(** The validator that accepts nothing else. *)
#[global, refine] Instance strict_validator : Validator := {|
  validate_str v := match v with JStr s => Some s | _ => None end;
  validate_int v := match v with JInt z => Some z | _ => None end
|}.
Proof. all: reflexivity. Defined.

Record TaskRequest : Type := {
  task : pystr;
  system_prompt : option pystr;
  max_tokens : Z
}.

Record TaskResponse : Type := {
  model : pystr;
  output_text : pystr;
  input_tokens : option Z;
  output_tokens : option Z
}.

(** A field of type [T | None]: [None] passes, anything else is validated
    as a [T]. *)
Definition validate_optional {A} (validate : json -> option A) (v : json)
    : option (option A) :=
  match v with
  | JNull => Some None
  | _ => match validate v with Some a => Some (Some a) | None => None end
  end.

Section Handlers.

Context {V : Validator}.

(** [TaskRequest(task=..., system_prompt=..., max_tokens=...)] *)
Definition new_TaskRequest (task system_prompt : json) (max_tokens : json)
    : result TaskRequest :=
  match validate_str task, validate_optional validate_str system_prompt,
        validate_int max_tokens with
  | Some t, Some s, Some m =>
    Return {| task := t; system_prompt := s; max_tokens := m |}
  | _, _, _ => Raise ValidationError
  end.

(** [TaskResponse(model=..., output_text=..., input_tokens=...,
    output_tokens=...)] *)
Definition new_TaskResponse (model output_text input_tokens output_tokens : json)
    : result TaskResponse :=
  match validate_str model, validate_str output_text,
        validate_optional validate_int input_tokens,
        validate_optional validate_int output_tokens with
  | Some m, Some o, Some i, Some u =>
    Return {| model := m; output_text := o; input_tokens := i; output_tokens := u |}
  | _, _, _, _ => Raise ValidationError
  end.

(** ** The upstream API *)

(** The body sent to [/v1/messages]. *)
Record Payload : Type := {
  payload_model : pystr;
  payload_max_tokens : Z;
  payload_system : option pystr;
  payload_messages : list (pystr * pystr)   (* role, content *)
}.

(** One [client.post]. *)
Record Post : Type := {
  base_url : pystr;
  path : pystr;
  authorization : pystr;
  post_json : Payload
}.

(** An [httpx.Response]; [json_of] is the value its body decodes to, if it
    is JSON. *)
Record Response : Type := {
  status_code : Z;
  text : pystr;
  json_of : option json
}.

(** [response.json()]; [JSONDecodeError] stands for whatever the call raises
    on a body that does not decode. *)
Definition response_json (response : Response) : result json :=
  match json_of response with
  | Some v => Return v
  | None => Raise JSONDecodeError
  end.

(** The network: a response, or the exception [client.post] raises. *)
Definition upstream : Type := Post -> Response + exn.

Definition await_post (net : upstream) (p : Post) : result Response :=
  match net p with
  | inl response => Return response
  | inr e => Raise e
  end.

(** ** Module state

    [TASKS] and [STREAM_EVENTS] are taken in the shape the handlers expect
    of them: a list of [dict] entries, and a list of sequences of text
    payloads. *)

Record Globals : Type := {
  ANTHROPIC_API_KEY : pystr;
  USE_MOCK : bool;
  TASKS : list pydict;
  STREAM_EVENTS : list (list pystr)
}.

Variable G : Globals.

(** ** [POST /task]

    The handler gives the calls it made upstream and how it ended. *)
Definition run_task (net : upstream) (req : TaskRequest) (g : rng)
    : list Post * result TaskResponse :=
  let anthropic_payload :=
    {| payload_model := py "claude-3-opus-20240229";
       payload_max_tokens := max_tokens req;
       payload_system := system_prompt req;
       payload_messages := [(py "user", task req)] |} in
  let post :=
    {| base_url := py "https://api.anthropic.com";
       path := py "/v1/messages";
       authorization := py "Bearer " ++ ANTHROPIC_API_KEY G;
       post_json := anthropic_payload |} in
  let data :=
    try_except
      (response ← await_post net post;
       if negb (status_code response =? 200)
       then
         if bool_decide (status_code response ∈ [401; 403; 500; 503]) || USE_MOCK G
         then '(data, _) ← generate_mock_response (task req) g; Return data
         else HTTPException (status_code response) (text response)
       else response_json response)
      ('(data, _) ← generate_mock_response (task req) g; Return data) in
  ([post],
   data ← data;
   content ← py_get data (py "content") (JArr []);
   blocks ← py_iter content;
   text_blocks ←
     comprehension
       (fun block => t ← py_get block (py "type") JNull;
                     Return (py_eq_str t (py "text")))
       (fun block => py_getitem block (py "text"))
       blocks;
   model ← py_getitem data (py "model");
   output_text ← py_join nl text_blocks;
   usage ← py_get data (py "usage") (JObj []);
   input_tokens ← py_get usage (py "input_tokens") JNull;
   usage ← py_get data (py "usage") (JObj []);
   output_tokens ← py_get usage (py "output_tokens") JNull;
   new_TaskResponse model (JStr output_text) input_tokens output_tokens).

(** ** [POST /task/send] *)
Definition run_random_task (net : upstream) (g : rng)
    : list Post * result TaskResponse :=
  match TASKS G with
  | [] => ([], HTTPException 500 (py "No tasks loaded from tasks.json"))
  | _ =>
    match
      ('(random_task_data, g) ← choice (TASKS G) g;
       t ← py_getitem (JObj random_task_data) (py "task");
       s ← py_get (JObj random_task_data) (py "system_prompt")
             (JStr (py "You are a senior software engineer"));
       req ← new_TaskRequest t s (JInt 1024);
       Return (req, g))
    with
    | Return (req, g) =>
      let anthropic_payload :=
        {| payload_model := py "claude-3-opus-20240229";
           payload_max_tokens := max_tokens req;
           payload_system := system_prompt req;
           payload_messages := [(py "user", task req)] |} in
      let post :=
        {| base_url := py "https://api.anthropic.com";
           path := py "/v1/messages";
           authorization := py "Bearer " ++ ANTHROPIC_API_KEY G;
           post_json := anthropic_payload |} in
      let data :=
        try_except
          (response ← await_post net post;
           if negb (status_code response =? 200)
           then
             if bool_decide (status_code response ∈ [401; 403; 500; 503]) || USE_MOCK G
             then '(data, _) ← generate_mock_response (task req) g; Return data
             else HTTPException (status_code response) (text response)
           else response_json response)
          ('(data, _) ← generate_mock_response (task req) g; Return data) in
      ([post],
       data ← data;
       content ← py_get data (py "content") (JArr []);
       blocks ← py_iter content;
       text_blocks ←
         comprehension
           (fun block => t ← py_get block (py "type") JNull;
                         Return (py_eq_str t (py "text")))
           (fun block => py_getitem block (py "text"))
           blocks;
       model ← py_getitem data (py "model");
       output_text ← py_join nl text_blocks;
       usage ← py_get data (py "usage") (JObj []);
       input_tokens ← py_get usage (py "input_tokens") JNull;
       usage ← py_get data (py "usage") (JObj []);
       output_tokens ← py_get usage (py "output_tokens") JNull;
       new_TaskResponse model (JStr output_text) input_tokens output_tokens)
    | HTTPException s d => ([], HTTPException s d)
    | Raise e => ([], Raise e)
    end
  end.

(** ** [GET /stream] *)

(** What one run of the generator does, in order. *)
Inductive effect : Type :=
| Yield (chunk : pystr)
| Sleep (draw : nat).   (* [asyncio.sleep(random.uniform(0.1, 0.3))] *)

(** The [for event in events_sequence] loop. *)
Fixpoint emit_events (events_sequence : list pystr) (g : rng) : list effect :=
  match events_sequence with
  | [] => []
  | event :: rest =>
    let (d, g) := next_draw g in
    Yield (py "data: " ++ event ++ nl ++ nl) :: Sleep d :: emit_events rest g
  end.

Definition event_generator (g : rng) : result (list effect) :=
  match STREAM_EVENTS G with
  | [] => Return [Yield (py "event: error" ++ nl ++ py "data: No events loaded" ++ nl ++ nl)]
  | _ =>
    '(events_sequence, g) ← choice (STREAM_EVENTS G) g;
    Return (emit_events events_sequence g
            ++ [Yield (py "event: done" ++ nl ++ py "data: Sequence completed" ++ nl ++ nl)])
  end.

(** The messages a consumer of the generator receives. *)
Definition chunks (es : list effect) : list pystr :=
  omap (fun e => match e with Yield c => Some c | Sleep _ => None end) es.

End Handlers.

Arguments py : simpl never.

(** * Definitions for the statements *)

(** ** The two stages of a handler

    Both handlers run the same two stages on the request they hold: get a
    body (the upstream one or a mock), then extract the text. They are named
    here to state lemmas about them; [run_task_stages] ties them to the
    handler. *)

Definition task_post (G : Globals) (req : TaskRequest) : Post :=
  {| base_url := py "https://api.anthropic.com";
     path := py "/v1/messages";
     authorization := py "Bearer " ++ ANTHROPIC_API_KEY G;
     post_json :=
       {| payload_model := py "claude-3-opus-20240229";
          payload_max_tokens := max_tokens req;
          payload_system := system_prompt req;
          payload_messages := [(py "user", task req)] |} |}.

Definition mock_body (task : pystr) (g : rng) : result json :=
  '(data, _) ← generate_mock_response task g; Return data.

Definition fetch (G : Globals) (net : upstream) (req : TaskRequest) (g : rng)
    : result json :=
  try_except
    (response ← await_post net (task_post G req);
     if negb (status_code response =? 200)
     then
       if bool_decide (status_code response ∈ [401; 403; 500; 503]) || USE_MOCK G
       then mock_body (task req) g
       else HTTPException (status_code response) (text response)
     else response_json response)
    (mock_body (task req) g).

Definition extract `{Validator} (data : json) : result TaskResponse :=
  content ← py_get data (py "content") (JArr []);
  blocks ← py_iter content;
  text_blocks ←
    comprehension
      (fun block => t ← py_get block (py "type") JNull;
                    Return (py_eq_str t (py "text")))
      (fun block => py_getitem block (py "text"))
      blocks;
  model ← py_getitem data (py "model");
  output_text ← py_join nl text_blocks;
  usage ← py_get data (py "usage") (JObj []);
  input_tokens ← py_get usage (py "input_tokens") JNull;
  usage ← py_get data (py "usage") (JObj []);
  output_tokens ← py_get usage (py "output_tokens") JNull;
  new_TaskResponse model (JStr output_text) input_tokens output_tokens.

(** ** What the specification calls the text blocks of a body *)

Definition content_blocks (data : json) : list json :=
  match data with
  | JObj d => match lookup_key (py "content") d with Some (JArr l) => l | _ => [] end
  | _ => []
  end.

Definition is_text_block (block : json) : bool :=
  match block with
  | JObj d =>
    match lookup_key (py "type") d with
    | Some (JStr s) => bool_decide (s = py "text")
    | _ => false
    end
  | _ => false
  end.

Definition block_text (block : json) : pystr :=
  match block with
  | JObj d => match lookup_key (py "text") d with Some (JStr s) => s | _ => [] end
  | _ => []
  end.

(** The newline-separated join, in order, of the text of the text blocks. *)
Definition joined_text (data : json) : pystr :=
  join nl (map block_text (List.filter is_text_block (content_blocks data))).

(** The mock identifier and the marker every mock text ends with. *)
Definition mock_model : pystr := py "claude-3-opus-20240229".
Definition marker : pystr := py "[AKIONE]".

(** The text of a mock answer for [task] opened by [phrase]. *)
Definition mock_text (phrase task : pystr) : pystr :=
  phrase ++ nl ++ nl ++ take 100 task ++ py "..." ++ nl ++ nl ++ marker.

(** The body the generator builds from its three draws. *)
Definition mock_data (phrase task : pystr) (offset out : Z) : json :=
  JObj
    [ (py "model", JStr mock_model);
      (py "content",
       JArr [ JObj [ (py "type", JStr (py "text"));
                     (py "text", JStr (mock_text phrase task)) ] ]);
      (py "usage",
       JObj [ (py "input_tokens", JInt (Z.of_nat (length (split task)) + offset));
              (py "output_tokens", JInt out) ]) ].

(** A block the comprehension gets through: a [dict], with a [str] under
    ["text"] when its type is ["text"]. *)
Definition block_ok (block : json) : Prop :=
  exists d, block = JObj d /\
    (is_text_block block = true ->
     exists s, lookup_key (py "text") d = Some (JStr s)).

Definition text_cond (block : json) : result bool :=
  t ← py_get block (py "type") JNull; Return (py_eq_str t (py "text")).

Definition text_elt (block : json) : result json :=
  py_getitem block (py "text").

(** A field of the usage record that the response can carry. *)
Definition token_ok (usage : pydict) (k : pystr) : Prop :=
  match lookup_key k usage with
  | None | Some JNull | Some (JInt _) => True
  | _ => False
  end.

(** A body the extraction accepts whatever the validator: a [dict] with a
    [str] model, a content that (when present) is a list of blocks the
    comprehension gets through, a usage that (when present) is a [dict] of
    [int] or [None] counts. *)
Definition body_ok (data : json) : Prop :=
  exists d, data = JObj d /\
    (exists m, lookup_key (py "model") d = Some (JStr m)) /\
    match lookup_key (py "content") d with
    | None => True
    | Some (JArr blocks) => Forall block_ok blocks
    | _ => False
    end /\
    match lookup_key (py "usage") d with
    | None => True
    | Some (JObj u) => token_ok u (py "input_tokens") /\ token_ok u (py "output_tokens")
    | _ => False
    end.

Definition body_model (data : json) : pystr :=
  match data with
  | JObj d => match lookup_key (py "model") d with Some (JStr m) => m | _ => [] end
  | _ => []
  end.

Definition usage_token (data : json) (k : pystr) : option Z :=
  match data with
  | JObj d =>
    match lookup_key (py "usage") d with
    | Some (JObj u) => match lookup_key k u with Some (JInt z) => Some z | _ => None end
    | _ => None
    end
  | _ => None
  end.

(** The module state with the flag set to [b]. *)
Definition with_mock (b : bool) (G : Globals) : Globals :=
  {| ANTHROPIC_API_KEY := ANTHROPIC_API_KEY G;
     USE_MOCK := b;
     TASKS := TASKS G;
     STREAM_EVENTS := STREAM_EVENTS G |}.

(** The upstream outcomes answered with a mock: a status other than 200
    that is one of the four listed or meets the flag, or an exception the
    handler catches. *)
Definition falls_back (G : Globals) (o : Response + exn) : bool :=
  match o with
  | inl response =>
    negb (status_code response =? 200)
    && (bool_decide (status_code response ∈ [401; 403; 500; 503]) || USE_MOCK G)
  | inr e => caught e
  end.

(** [m] does not end in an [HTTPException]. *)
Definition no_http {A} (m : result A) : Prop :=
  forall s d, m <> HTTPException s d.

(** The body a returned response was built from: the upstream one on a 200,
    the mock one on the fallback path. *)
Definition effective_body (G : Globals) (net : upstream) (req : TaskRequest)
    (g : rng) (data : json) : Prop :=
  (exists response,
     net (task_post G req) = inl response /\ status_code response = 200 /\
     json_of response = Some data)
  \/ (falls_back G (net (task_post G req)) = true /\
      mock_body (task req) g = Return data).

Definition data_message (event : pystr) : pystr :=
  py "data: " ++ event ++ nl ++ nl.

Definition done_message : pystr :=
  py "event: done" ++ nl ++ py "data: Sequence completed" ++ nl ++ nl.

Definition error_message : pystr :=
  py "event: error" ++ nl ++ py "data: No events loaded" ++ nl ++ nl.

(** The request the specification has [/task/send] build from an entry:
    task = the entry's task, system_prompt = the entry's system_prompt or
    the default, max_tokens = 1024. *)
Definition entry_request `{Validator} (entry : pydict) : result TaskRequest :=
  t ← py_getitem (JObj entry) (py "task");
  new_TaskRequest t
    (match lookup_key (py "system_prompt") entry with
     | Some s => s
     | None => JStr (py "You are a senior software engineer")
     end)
    (JInt 1024).

(** [/task/send] as the specification words it: hand the request built from
    the entry to the [/task] handler. *)
Definition delegate_to_run_task `{Validator} (G : Globals) (net : upstream)
    (entry : pydict) (g : rng) : list Post * result TaskResponse :=
  match entry_request entry with
  | Return req => run_task G net req g
  | HTTPException s d => ([], HTTPException s d)
  | Raise e => ([], Raise e)
  end.

(** The bodies C9 speaks of: a ["model"] field, and a ["text"] field in
    every content block whose type is ["text"]. *)
Definition has_model_and_texts (data : json) : Prop :=
  exists d, data = JObj d /\
    is_Some (lookup_key (py "model") d) /\
    Forall (fun block =>
              is_text_block block = true ->
              exists bd, block = JObj bd /\ is_Some (lookup_key (py "text") bd))
           (content_blocks data).

(** ** Concrete inputs *)

Module Sample.

Definition globals (use_mock : bool) : Globals :=
  {| ANTHROPIC_API_KEY := py "sk-ant-0000";
     USE_MOCK := use_mock;
     TASKS :=
       [ [ (py "task", JStr (py "Explain the CAP theorem")) ];
         [ (py "task", JStr (py "Write a binary search"));
           (py "system_prompt", JStr (py "You are a patient teacher")) ] ];
     STREAM_EVENTS := [ [py "a"; py "b"] ] |}.

Definition no_data : Globals :=
  {| ANTHROPIC_API_KEY := py "sk-ant-0000";
     USE_MOCK := false;
     TASKS := [];
     STREAM_EVENTS := [] |}.

Definition req : TaskRequest :=
  {| task := py "Explain the CAP theorem";
     system_prompt := Some (py "You are a senior software engineer");
     max_tokens := 1024 |}.

(** A network that answers every call the same way. *)
Definition answers (o : Response + exn) : upstream := fun _ => o.

Definition status (code : Z) : Response :=
  {| status_code := code; text := py "upstream says no"; json_of := None |}.

(** A genuine answer of another model. *)
Definition genuine : Response :=
  {| status_code := 200;
     text := py "(body)";
     json_of :=
       Some (JObj
               [ (py "model", JStr (py "claude-3-5-sonnet-20241022"));
                 (py "content",
                  JArr [ JObj [ (py "type", JStr (py "text"));
                                (py "text", JStr (py "Consistency.")) ];
                         JObj [ (py "type", JStr (py "tool_use"));
                                (py "id", JStr (py "toolu_1")) ];
                         JObj [ (py "type", JStr (py "text"));
                                (py "text", JStr (py "Availability.")) ] ]);
                 (py "usage",
                  JObj [ (py "input_tokens", JInt 12);
                         (py "output_tokens", JInt 7) ]) ]) |}.

(** A 200 whose only text block carries a number. *)
Definition number_text : Response :=
  {| status_code := 200;
     text := py "(body)";
     json_of :=
       Some (JObj
               [ (py "model", JStr (py "claude-3-opus-20240229"));
                 (py "content",
                  JArr [ JObj [ (py "type", JStr (py "text"));
                                (py "text", JInt 5) ] ]) ]) |}.

(** A 200 with nothing but a model. *)
Definition bare : Response :=
  {| status_code := 200;
     text := py "(body)";
     json_of := Some (JObj [ (py "model", JStr (py "claude-3-opus-20240229")) ]) |}.

Definition draws : rng := fun n => (7 * n + 3)%nat.

End Sample.

(** ** Further definitions for the handlers and the stream *)

(** [bool(v)] *)
Definition truthy (v : json) : bool :=
  match v with
  | JNull => false
  | JBool b => b
  | JInt z => negb (z =? 0)
  | JFloat bits => negb ((bits =? 0)%N || (bits =? 2 ^ 63)%N)   (* +0.0, -0.0 *)
  | JStr s => match s with [] => false | _ => true end
  | JArr l => match l with [] => false | _ => true end
  | JObj d => match d with [] => false | _ => true end
  end.

(** A trace in which every message but the last is followed by one sleep,
    and nothing else happens. *)
Fixpoint well_paced (es : list effect) : bool :=
  match es with
  | [Yield _] => true
  | Yield _ :: Sleep _ :: rest => well_paced rest
  | _ => false
  end.

Definition sleeps (es : list effect) : nat :=
  length (List.filter (fun e => match e with Sleep _ => true | Yield _ => false end) es).

(** The [system] a dataset entry puts in the payload, when its
    ["system_prompt"] is absent, [None] or a [str]. *)
Definition entry_system (entry : pydict) : option pystr :=
  match lookup_key (py "system_prompt") entry with
  | None => Some (py "You are a senior software engineer")
  | Some (JStr s) => Some s
  | Some _ => None
  end.

(** ** Start of the module (main.py, lines 12-34) *)

Module Startup.

(** What [open] and [json.load] find. *)
Inductive file : Type :=
| Missing
| Malformed
| Parsed (data : json).

Inductive error : Type :=
| FileNotFoundError
| JSONDecodeError
| AttributeError
| RuntimeError (message : pystr).

(** The process environment and the two files beside the module. *)
Record Process : Type := {
  env_ANTHROPIC_API_KEY : option pystr;
  env_USE_MOCK : option pystr;
  tasks_json : file;
  stream_events_json : file
}.

(** The module globals once the module body has run. *)
Record Loaded : Type := {
  ANTHROPIC_API_KEY : pystr;
  USE_MOCK : bool;
  TASKS : json;
  STREAM_EVENTS : json
}.

(** [json.load(f)] followed by [data.get(key, [])]. *)
Definition load (f : file) (key : pystr) : error + json :=
  match f with
  | Missing => inl FileNotFoundError
  | Malformed => inl JSONDecodeError
  | Parsed (JObj d) =>
    inr (match lookup_key key d with Some v => v | None => JArr [] end)
  | Parsed _ => inl AttributeError
  end.

Definition load_tasks (p : Process) : error + json :=
  load (tasks_json p) (py "tasks").

Definition load_stream_events (p : Process) : error + json :=
  load (stream_events_json p) (py "events").

Section Lower.

(** [str.lower] *)
Variable lower : pystr -> pystr.

(** The module body, top to bottom. *)
Definition module_body (p : Process) : error + Loaded :=
  let ANTHROPIC_API_KEY := env_ANTHROPIC_API_KEY p in
  let USE_MOCK :=
    bool_decide
      (lower (match env_USE_MOCK p with Some v => v | None => py "false" end)
       = py "true") in
  match load_tasks p with
  | inl e => inl e
  | inr TASKS =>
    match load_stream_events p with
    | inl e => inl e
    | inr STREAM_EVENTS =>
      match ANTHROPIC_API_KEY with
      | Some (c :: key) =>
        inr {| ANTHROPIC_API_KEY := c :: key;
               USE_MOCK := USE_MOCK;
               TASKS := TASKS;
               STREAM_EVENTS := STREAM_EVENTS |}
      | _ => inl (RuntimeError (py "Set ANTHROPIC_API_KEY env variable"))
      end
    end
  end.

End Lower.

(** [str.lower] on the ASCII range. *)
Definition ascii_lower (c : N) : N :=
  if ((65 <=? c) && (c <=? 90))%N then (c + 32)%N else c.

Definition is_ascii (s : pystr) : Prop := Forall (fun c => (c < 128)%N) s.

End Startup.

(** ** The health check (health_check.py) *)

Module HealthCheck.

Definition API_BASE_URL : pystr := py "http://localhost:8000".
Definition RANDOM_TASK_ENDPOINT : pystr := API_BASE_URL ++ py "/task/send".
Definition STREAM_ENDPOINT : pystr := API_BASE_URL ++ py "/stream".

(** The calls of the [requests] library the script makes. *)
Inductive request : Type :=
| POST (url : pystr) (timeout : Z) (json : json)
| GET (url : pystr) (timeout : Z) (stream : bool).

(** What a call raises, by the [except] clause that takes it. *)
Inductive failure : Type :=
| Timeout             (* requests.exceptions.Timeout *)
| ConnectionError     (* requests.exceptions.ConnectionError *)
| OtherException.     (* any other Exception *)

(** A [requests.Response]: [lines] are the byte strings [iter_lines()]
    gives, [lines_raise] tells whether the iteration then raises. *)
Record Response : Type := {
  status_code : Z;
  text : pystr;
  json_of : option json;
  lines : list (list N);
  lines_raise : bool
}.

Definition server : Type := request -> Response + failure.

(** The records written to the log, one constructor per [logger] call; the
    elapsed time of a passed task check is left out. *)
Inductive record : Type :=
| TaskStarting
| TaskPassed (status : Z) (model input_tokens output_tokens : json)
| TaskFailed (status : Z) (response : pystr)
| TaskTimeout
| TaskConnectionRefused
| TaskException
| StreamTesting
| StreamPassed (event_count : nat)
| StreamFailed (status : Z)
| StreamException
| Rule
| Started
| AllPassed
| SomeFailed.

(** [logger.error] or [logger.info]. *)
Definition is_error (r : record) : bool :=
  match r with
  | TaskFailed _ _ | TaskTimeout | TaskConnectionRefused | TaskException
  | StreamFailed _ | StreamException | SomeFailed => true
  | _ => false
  end.

(** What a check did: the calls it made, what it logged, what it returned. *)
Record run : Type := {
  calls : list request;
  log : list record;
  passed : bool
}.

Definition test_random_task (srv : server) : run :=
  let call := POST RANDOM_TASK_ENDPOINT 120 (JObj []) in
  match srv call with
  | inl response =>
    if status_code response =? 200
    then
      match
        (data ← match json_of response with
                | Some v => Return v
                | None => Raise JSONDecodeError
                end;
         m ← py_get data (py "model") JNull;
         i ← py_get data (py "input_tokens") (JInt 0);
         o ← py_get data (py "output_tokens") (JInt 0);
         Return (m, i, o))
      with
      | Return (m, i, o) =>
        {| calls := [call];
           log := [TaskStarting; TaskPassed (status_code response) m i o];
           passed := true |}
      | _ =>
        {| calls := [call]; log := [TaskStarting; TaskException]; passed := false |}
      end
    else
      {| calls := [call];
         log := [TaskStarting;
                 TaskFailed (status_code response) (take 200 (text response))];
         passed := false |}
  | inr Timeout =>
    {| calls := [call]; log := [TaskStarting; TaskTimeout]; passed := false |}
  | inr ConnectionError =>
    {| calls := [call]; log := [TaskStarting; TaskConnectionRefused]; passed := false |}
  | inr OtherException =>
    {| calls := [call]; log := [TaskStarting; TaskException]; passed := false |}
  end.

(** [line.startswith(prefix)] *)
Fixpoint startswith (line prefix : list N) : bool :=
  match prefix, line with
  | [], _ => true
  | p :: prefix', c :: line' => (c =? p)%N && startswith line' prefix'
  | _ :: _, [] => false
  end.

(** The [for line in response.iter_lines()] loop. *)
Fixpoint count_events (lines : list (list N)) (event_count : nat) : nat :=
  match lines with
  | [] => event_count
  | line :: rest =>
    if match line with [] => false | _ => true end && startswith line (py "data: ")
    then count_events rest (event_count + 1)
    else count_events rest event_count
  end.

Definition test_stream (srv : server) : run :=
  let call := GET STREAM_ENDPOINT 30 true in
  match srv call with
  | inl response =>
    if status_code response =? 200
    then
      let event_count := count_events (lines response) 0 in
      if lines_raise response
      then {| calls := [call]; log := [StreamTesting; StreamException]; passed := false |}
      else {| calls := [call];
              log := [StreamTesting; StreamPassed event_count];
              passed := true |}
    else
      {| calls := [call];
         log := [StreamTesting; StreamFailed (status_code response)];
         passed := false |}
  | inr _ =>
    {| calls := [call]; log := [StreamTesting; StreamException]; passed := false |}
  end.

(** [now] is [datetime.now().isoformat()]. *)
Definition run_health_check (srv : server) (now : pystr) : run :=
  let random_task := test_random_task srv in
  let stream := test_stream srv in
  let results := [JStr now; JBool (passed random_task); JBool (passed stream)] in
  let all := forallb truthy results in
  {| calls := calls random_task ++ calls stream;
     log := [Rule; Started; Rule] ++ log random_task ++ log stream
            ++ [if all then AllPassed else SomeFailed];
     passed := all |}.




End HealthCheck.

(** ** More concrete inputs *)

Module Fixture.

(** A dataset whose only entry has no task. *)
Definition untitled : Globals :=
  {| ANTHROPIC_API_KEY := py "sk-ant-0000";
     USE_MOCK := false;
     TASKS := [ [ (py "system_prompt", JStr (py "You are a patient teacher")) ] ];
     STREAM_EVENTS := [] |}.

(** [str.lower], on ASCII text. *)
Definition lower (s : pystr) : pystr := map Startup.ascii_lower s.

Definition process : Startup.Process :=
  {| Startup.env_ANTHROPIC_API_KEY := Some (py "sk-ant-0000");
     Startup.env_USE_MOCK := Some (py "True");
     Startup.tasks_json :=
       Startup.Parsed
         (JObj [ (py "tasks",
                  JArr [ JObj [ (py "task", JStr (py "Explain the CAP theorem")) ] ]) ]);
     Startup.stream_events_json := Startup.Parsed (JObj []) |}.

(** A server that answers the task check with an empty object and the
    stream check with no line at all. *)
Definition hollow : HealthCheck.server := fun r =>
  match r with
  | HealthCheck.POST _ _ _ =>
    inl {| HealthCheck.status_code := 200;
           HealthCheck.text := py "{}";
           HealthCheck.json_of := Some (JObj []);
           HealthCheck.lines := [];
           HealthCheck.lines_raise := false |}
  | HealthCheck.GET _ _ _ =>
    inl {| HealthCheck.status_code := 200;
           HealthCheck.text := [];
           HealthCheck.json_of := None;
           HealthCheck.lines := [];
           HealthCheck.lines_raise := false |}
  end.

End Fixture.

(** * Properties *)

Lemma run_task_stages `{Validator} G net req g :
  run_task G net req g =
  ([task_post G req], data ← fetch G net req g; extract data).
Proof. reflexivity. Qed.

(** ** Random draws *)

Lemma choice_nonempty {A} (seq : list A) (g : rng) :
  seq <> [] ->
  exists x, x ∈ seq /\ choice seq g = Return (x, snd (next_draw g)).
Proof.
  intros Hne. unfold choice. simpl.
  assert (Hlt : (g O mod length seq < length seq)%nat).
  { apply Nat.mod_upper_bound. destruct seq; [congruence | simpl; lia]. }
  destruct (lookup_lt_is_Some_2 _ _ Hlt) as [x Hx].
  exists x. rewrite Hx. split; [| reflexivity].
  eapply list_elem_of_lookup_2; eauto.
Qed.

Lemma randint_range (a b : Z) (g : rng) :
  a <= b -> a <= fst (randint a b g) <= b.
Proof.
  intros Hab. unfold randint. simpl.
  pose proof (Z.mod_pos_bound (Z.of_nat (g O)) (b - a + 1)). lia.
Qed.

Lemma randint_rng (a b : Z) (g : rng) :
  snd (randint a b g) = snd (next_draw g).
Proof. reflexivity. Qed.

(** ** The mock generator *)

Lemma generate_mock_response_shape (task : pystr) (g : rng) :
  exists phrase offset out g',
    phrase ∈ MOCK_RESPONSES /\ 10 <= offset <= 50 /\ 50 <= out <= 300 /\
    generate_mock_response task g = Return (mock_data phrase task offset out, g').
Proof.
  destruct (choice_nonempty MOCK_RESPONSES g) as [phrase [Hin Hc]];
    [discriminate |].
  set (g1 := snd (next_draw g)) in *.
  exists phrase, (fst (randint 10 50 g1)),
    (fst (randint 50 300 (snd (randint 10 50 g1)))),
    (snd (randint 50 300 (snd (randint 10 50 g1)))).
  split; [exact Hin |].
  split; [apply randint_range; lia |].
  split; [apply randint_range; lia |].
  unfold generate_mock_response. rewrite Hc. reflexivity.
Qed.

Lemma mock_body_shape (task : pystr) (g : rng) :
  exists phrase offset out,
    phrase ∈ MOCK_RESPONSES /\ 10 <= offset <= 50 /\ 50 <= out <= 300 /\
    mock_body task g = Return (mock_data phrase task offset out).
Proof.
  destruct (generate_mock_response_shape task g)
    as (phrase & offset & out & g' & Hin & Ho & Hu & Heq).
  exists phrase, offset, out. repeat split; try tauto; try lia.
  unfold mock_body. rewrite Heq. reflexivity.
Qed.

(** ** Extraction *)

Lemma all_str_JStr (ss : list pystr) : all_str (map JStr ss) = Return ss.
Proof.
  induction ss as [| s ss IH]; [reflexivity |].
  simpl. rewrite IH. reflexivity.
Qed.

Lemma text_cond_JObj d : text_cond (JObj d) = Return (is_text_block (JObj d)).
Proof.
  unfold text_cond, is_text_block. simpl.
  destruct (lookup_key (py "type") d) as [[]|]; reflexivity.
Qed.

Lemma text_elt_JObj d :
  text_elt (JObj d) =
  match lookup_key (py "text") d with Some v => Return v | None => Raise KeyError end.
Proof. reflexivity. Qed.

Lemma comprehension_text_blocks (blocks : list json) :
  Forall block_ok blocks ->
  comprehension text_cond text_elt blocks =
  Return (map (fun b => JStr (block_text b)) (List.filter is_text_block blocks)).
Proof.
  induction 1 as [| b blocks [d [-> Ht]] _ IH]; [reflexivity |].
  cbn [comprehension List.filter]. rewrite text_cond_JObj.
  cbn [mbind result_bind].
  destruct (is_text_block (JObj d)) eqn:E.
  - destruct (Ht eq_refl) as [s Hs].
    rewrite text_elt_JObj, Hs. cbn [mbind result_bind].
    rewrite IH. cbn [mbind result_bind mret result_ret map].
    replace (block_text (JObj d)) with s
      by (unfold block_text; rewrite Hs; reflexivity).
    reflexivity.
  - exact IH.
Qed.

(** Conversely, when the comprehension and the join both succeed, the
    joined strings are the texts of the text blocks. *)
Lemma comprehension_join_inv (blocks vs : list json) (ss : list pystr) :
  comprehension text_cond text_elt blocks = Return vs ->
  all_str vs = Return ss ->
  ss = map block_text (List.filter is_text_block blocks).
Proof.
  revert vs ss. induction blocks as [| b blocks IH]; intros vs ss Hc Hs.
  - simpl in Hc. injection Hc as <-. simpl in Hs. injection Hs as <-. reflexivity.
  - cbn [comprehension] in Hc.
    destruct b as [| | | | | |d]; try discriminate Hc.
    rewrite text_cond_JObj in Hc. cbn [mbind result_bind] in Hc.
    cbn [List.filter].
    destruct (is_text_block (JObj d)) eqn:E; [| eauto].
    rewrite text_elt_JObj in Hc.
    destruct (lookup_key (py "text") d) as [v|] eqn:Ev; [| discriminate Hc].
    cbn [mbind result_bind] in Hc.
    destruct (comprehension text_cond text_elt blocks) as [vs'| |];
      try discriminate Hc.
    cbn [mbind result_bind mret result_ret] in Hc. injection Hc as <-.
    destruct v as [| | | |s| |]; try discriminate Hs. cbn [all_str] in Hs.
    destruct (all_str vs') as [ss'| |] eqn:E'; try discriminate Hs.
    cbn [mbind result_bind mret result_ret] in Hs. injection Hs as <-.
    replace s with (block_text (JObj d))
      by (unfold block_text; rewrite Ev; reflexivity).
    cbn [map]. f_equal. eapply IH; eauto.
Qed.

Lemma bind_Return_inv {A B} (m : result A) (k : A -> result B) (b : B) :
  m ≫= k = Return b -> exists a, m = Return a /\ k a = Return b.
Proof. destruct m; try discriminate. intros Hk. eauto. Qed.

Ltac bind_inv H x Hx :=
  apply bind_Return_inv in H; destruct H as (x & Hx & H).

Section Extraction.

Context {V : Validator}.

Lemma validate_token (u : pydict) (k : pystr) :
  token_ok u k ->
  validate_optional validate_int
    (match lookup_key k u with Some v => v | None => JNull end) =
  Some (match lookup_key k u with Some (JInt z) => Some z | _ => None end).
Proof.
  unfold token_ok.
  destruct (lookup_key k u) as [[]|]; try contradiction; intros _;
    simpl; rewrite ?validate_int_JInt; reflexivity.
Qed.

Lemma extract_body_ok (data : json) :
  body_ok data ->
  extract data =
  Return {| model := body_model data;
            output_text := joined_text data;
            input_tokens := usage_token data (py "input_tokens");
            output_tokens := usage_token data (py "output_tokens") |}.
Proof.
  intros (d & -> & [m Hm] & Hc & Hu).
  unfold extract, joined_text, body_model, usage_token, content_blocks.
  cbn [py_get py_getitem mbind result_bind]. rewrite Hm.
  assert (Hblocks : exists blocks,
    py_iter (match lookup_key (py "content") d with
             | Some v => v | None => JArr [] end) = Return blocks /\
    match lookup_key (py "content") d with
    | Some (JArr l) => l | _ => [] end = blocks /\ Forall block_ok blocks).
  { destruct (lookup_key (py "content") d) as [[]|]; try contradiction;
      eexists; (split; [reflexivity |]); (split; [reflexivity |]); auto. }
  destruct Hblocks as (blocks & -> & -> & Hok).
  cbn [mbind result_bind].
  change (comprehension _ _ blocks) with (comprehension text_cond text_elt blocks).
  rewrite (comprehension_text_blocks blocks Hok).
  cbn [mbind result_bind]. unfold py_join.
  rewrite <- (map_map block_text JStr), all_str_JStr.
  cbn [mbind result_bind mret result_ret].
  unfold new_TaskResponse. rewrite !validate_str_JStr.
  destruct (lookup_key (py "usage") d) as [[| | | | | |u]|]; try contradiction.
  - destruct Hu as [Hi Ho]. cbn [py_get mbind result_bind].
    rewrite (validate_token u _ Hi), (validate_token u _ Ho). reflexivity.
  - reflexivity.
Qed.

Lemma new_TaskResponse_inv (m i u : json) (o : pystr) (r : TaskResponse) :
  new_TaskResponse m (JStr o) i u = Return r -> output_text r = o.
Proof.
  unfold new_TaskResponse. rewrite validate_str_JStr.
  destruct (validate_str m); [| discriminate].
  destruct (validate_optional validate_int i); [| discriminate].
  destruct (validate_optional validate_int u); [| discriminate].
  intros [= <-]. reflexivity.
Qed.

Lemma extract_output_text (data : json) (r : TaskResponse) :
  extract data = Return r -> output_text r = joined_text data.
Proof.
  unfold extract. intros H.
  bind_inv H content Hcontent. bind_inv H blocks Hblocks.
  bind_inv H vs Hvs. bind_inv H m Hm. bind_inv H o Ho.
  bind_inv H u1 Hu1. bind_inv H i Hi. bind_inv H u2 Hu2. bind_inv H u Hu.
  apply new_TaskResponse_inv in H. rewrite H. clear H.
  unfold py_join in Ho. bind_inv Ho ss Hss. injection Ho as <-.
  change (comprehension _ _ blocks) with (comprehension text_cond text_elt blocks) in Hvs.
  rewrite (comprehension_join_inv blocks vs ss Hvs Hss).
  unfold joined_text. do 3 f_equal.
  destruct data as [| | | | | |d]; try discriminate Hcontent.
  cbn [py_get] in Hcontent. injection Hcontent as <-.
  unfold content_blocks.
  destruct (lookup_key (py "content") d) as [[| | | |s|l|d']|];
    try discriminate Hblocks; cbn [py_iter] in Hblocks; injection Hblocks as <-;
    try reflexivity.
  - destruct s; [reflexivity | discriminate Hvs].
  - destruct d'; [reflexivity | discriminate Hvs].
Qed.

End Extraction.

(** ** Getting a body *)

Lemma fetch_falls_back G net req g :
  falls_back G (net (task_post G req)) = true ->
  fetch G net req g = mock_body (task req) g.
Proof.
  intros Hf. unfold fetch, await_post.
  destruct (mock_body_shape (task req) g) as (ph & off & out & _ & _ & _ & Hm).
  destruct (net (task_post G req)) as [response | e]; simpl in Hf.
  - apply andb_true_iff in Hf as [Hs Hm'].
    cbn [mbind result_bind]. rewrite Hs, Hm', Hm. reflexivity.
  - cbn [mbind result_bind try_except]. rewrite Hf. reflexivity.
Qed.

Lemma fetch_200 G net req g response :
  net (task_post G req) = inl response ->
  status_code response = 200 ->
  fetch G net req g = response_json response.
Proof.
  intros Hn Hs. unfold fetch, await_post. rewrite Hn.
  cbn [mbind result_bind]. rewrite Hs. cbn [Z.eqb Pos.eqb negb].
  unfold response_json. destruct (json_of response); reflexivity.
Qed.

Lemma fetch_unmapped G net req g response :
  net (task_post G req) = inl response ->
  status_code response <> 200 ->
  status_code response ∉ [401; 403; 500; 503] ->
  USE_MOCK G = false ->
  fetch G net req g = HTTPException (status_code response) (text response).
Proof.
  intros Hn Hs Hl Hm. unfold fetch, await_post. rewrite Hn.
  cbn [mbind result_bind]. apply Z.eqb_neq in Hs. rewrite Hs, Hm.
  rewrite bool_decide_eq_false_2 by exact Hl. reflexivity.
Qed.

Lemma fetch_uncaught G net req g e :
  net (task_post G req) = inr e ->
  caught e = false ->
  fetch G net req g = Raise e.
Proof.
  intros Hn Hc. unfold fetch, await_post. rewrite Hn.
  cbn [mbind result_bind try_except]. rewrite Hc. reflexivity.
Qed.

(** ** A mock body through the extraction *)

Lemma mock_data_ok phrase task offset out :
  body_ok (mock_data phrase task offset out).
Proof.
  eexists. split; [reflexivity |].
  split; [eexists; reflexivity |].
  split.
  - cbn. constructor; [| constructor].
    eexists. split; [reflexivity |]. intros _. eexists. reflexivity.
  - cbn. split; exact I.
Qed.

Lemma extract_mock_data `{Validator} phrase task offset out :
  extract (mock_data phrase task offset out) =
  Return {| model := mock_model;
            output_text := mock_text phrase task;
            input_tokens := Some (Z.of_nat (length (split task)) + offset);
            output_tokens := Some out |}.
Proof.
  rewrite (extract_body_ok _ (mock_data_ok phrase task offset out)).
  reflexivity.
Qed.

(** ** The handler on the fallback path *)

Lemma run_task_falls_back `{Validator} G net req g :
  falls_back G (net (task_post G req)) = true ->
  exists phrase offset out,
    phrase ∈ MOCK_RESPONSES /\ 10 <= offset <= 50 /\ 50 <= out <= 300 /\
    run_task G net req g =
    ([task_post G req],
     Return {| model := mock_model;
               output_text := mock_text phrase (task req);
               input_tokens := Some (Z.of_nat (length (split (task req))) + offset);
               output_tokens := Some out |}).
Proof.
  intros Hf.
  destruct (mock_body_shape (task req) g) as (ph & off & out & Hin & Ho & Hu & Hm).
  exists ph, off, out. repeat split; try tauto; try lia.
  rewrite run_task_stages, (fetch_falls_back _ _ _ _ Hf), Hm.
  cbn [mbind result_bind]. rewrite extract_mock_data. reflexivity.
Qed.


Lemma no_http_bind {A B} (m : result A) (k : A -> result B) :
  no_http m -> (forall a, no_http (k a)) -> no_http (m ≫= k).
Proof.
  intros Hm Hk s d. destruct m as [a | s' d' |e]; cbn [mbind result_bind].
  - apply Hk.
  - destruct (Hm s' d' eq_refl).
  - discriminate.
Qed.

Lemma no_http_py_get o k v : no_http (py_get o k v).
Proof. intros s d. destruct o; discriminate. Qed.

Lemma no_http_py_getitem o k : no_http (py_getitem o k).
Proof.
  intros s d. destruct o; try discriminate.
  simpl. destruct (lookup_key k fields); discriminate.
Qed.

Lemma no_http_py_iter o : no_http (py_iter o).
Proof. intros s d. destruct o; discriminate. Qed.

Lemma no_http_comprehension cond elt xs :
  (forall x, no_http (cond x)) -> (forall x, no_http (elt x)) ->
  no_http (comprehension cond elt xs).
Proof.
  intros Hc He. induction xs as [| x xs IH]; [discriminate |].
  cbn [comprehension]. apply no_http_bind; [apply Hc |].
  intros [|]; [| exact IH].
  apply no_http_bind; [apply He |]. intros v.
  apply no_http_bind; [exact IH |]. discriminate.
Qed.

Lemma no_http_py_join sep xs : no_http (py_join sep xs).
Proof.
  unfold py_join. apply no_http_bind; [| discriminate].
  induction xs as [| x xs IH]; [discriminate |].
  destruct x; try discriminate. cbn [all_str].
  apply no_http_bind; [exact IH |]. discriminate.
Qed.

Lemma no_http_new_TaskResponse `{Validator} m o i u :
  no_http (new_TaskResponse m o i u).
Proof.
  intros s d. unfold new_TaskResponse.
  destruct (validate_str m), (validate_str o),
    (validate_optional validate_int i), (validate_optional validate_int u);
    discriminate.
Qed.

Lemma no_http_extract `{Validator} data : no_http (extract data).
Proof.
  unfold extract.
  apply no_http_bind; [apply no_http_py_get | intros content].
  apply no_http_bind; [apply no_http_py_iter | intros blocks].
  apply no_http_bind; [| intros text_blocks].
  { apply no_http_comprehension; intros x.
    - apply no_http_bind; [apply no_http_py_get | discriminate].
    - apply no_http_py_getitem. }
  apply no_http_bind; [apply no_http_py_getitem | intros m].
  apply no_http_bind; [apply no_http_py_join | intros o].
  apply no_http_bind; [apply no_http_py_get | intros u1].
  apply no_http_bind; [apply no_http_py_get | intros i].
  apply no_http_bind; [apply no_http_py_get | intros u2].
  apply no_http_bind; [apply no_http_py_get | intros u].
  apply no_http_new_TaskResponse.
Qed.

Lemma fetch_Return_inv G net req g data :
  fetch G net req g = Return data -> effective_body G net req g data.
Proof.
  intros Hf.
  destruct (net (task_post G req)) as [response | e] eqn:Hn.
  - destruct (Z.eq_dec (status_code response) 200) as [Hs | Hs].
    + left. exists response. rewrite (fetch_200 _ _ _ _ _ Hn Hs) in Hf.
      unfold response_json in Hf.
      destruct (json_of response); [| discriminate]. injection Hf as ->. auto.
    + destruct (falls_back G (inl response)) eqn:Hfb.
      * right. split; [rewrite Hn; exact Hfb |].
        rewrite <- Hf. symmetry. apply fetch_falls_back.
        rewrite Hn. exact Hfb.
      * simpl in Hfb. apply Z.eqb_neq in Hs. rewrite Hs in Hfb.
        simpl in Hfb. apply orb_false_iff in Hfb as [Hl Hm].
        apply bool_decide_eq_false_1 in Hl. apply Z.eqb_neq in Hs.
        rewrite (fetch_unmapped _ _ _ _ _ Hn Hs Hl Hm) in Hf. discriminate.
  - destruct (caught e) eqn:Hc.
    + right. split; [rewrite Hn; exact Hc |]. rewrite <- Hf. symmetry.
      apply fetch_falls_back. rewrite Hn. exact Hc.
    + rewrite (fetch_uncaught _ _ _ _ _ Hn Hc) in Hf. discriminate.
Qed.

(** ** The except clause *)

(** The clause takes the three classes it names and nothing else. *)
Lemma caught_iff (e : exn) :
  caught e = true <-> e ∈ [RequestError; ConnectError; TimeoutError].
Proof.
  rewrite !elem_of_cons, elem_of_nil. split.
  - destruct e; simpl; try discriminate; auto.
  - intros [-> | [-> | [-> | []]]]; reflexivity.
Qed.

(** * The claims *)

Section Claims.

Context {V : Validator}.

(** C6. For every task text the mock generator returns, and never raises: a
    body whose model is ["claude-3-opus-20240229"], whose content is exactly
    one block of type ["text"] with as text a phrase of the fixed set, a
    blank line, the first 100 characters of the task, ["..."], a blank line
    and the marker ["[AKIONE]"], and whose usage has [input_tokens] equal to
    the task's word count plus an integer in [10,50] and [output_tokens] an
    integer in [50,300]. *)
Theorem generate_mock_response_returns (task : pystr) (g : rng) :
  exists data g',
    generate_mock_response task g = Return (data, g') /\
    py_getitem data (py "model") = Return (JStr (py "claude-3-opus-20240229")) /\
    (exists phrase,
       phrase ∈ MOCK_RESPONSES /\
       py_getitem data (py "content") =
       Return
         (JArr
            [ JObj
                [ (py "type", JStr (py "text"));
                  (py "text",
                   JStr (phrase ++ nl ++ nl ++ take 100 task
                         ++ py "..." ++ nl ++ nl ++ py "[AKIONE]")) ] ])) /\
    (exists offset out,
       10 <= offset <= 50 /\ 50 <= out <= 300 /\
       py_getitem data (py "usage") =
       Return
         (JObj
            [ (py "input_tokens", JInt (Z.of_nat (length (split task)) + offset));
              (py "output_tokens", JInt out) ])).
Proof.
  destruct (generate_mock_response_shape task g)
    as (phrase & offset & out & g' & Hin & Ho & Hu & Heq).
  exists (mock_data phrase task offset out), g'.
  split; [exact Heq |].
  split; [reflexivity |].
  split; [exists phrase; split; [exact Hin | reflexivity] |].
  exists offset, out. split; [exact Ho |]. split; [exact Hu | reflexivity].
Qed.


End Claims.


Section TaskClaims.

Context {V : Validator}.

(** C1, as amended. With the mock flag on, a [POST /task] whose upstream
    call ends in anything but a 200 response (another status, or an
    exception the handler catches) returns a response whose model is the
    mock identifier; on a 200 the handler does what it does with the flag
    off. *)
Theorem forced_mock_unless_200 G net req g :
  USE_MOCK G = true ->
  (match net (task_post G req) with
   | inl response => status_code response <> 200
   | inr e => caught e = true
   end ->
   exists r, snd (run_task G net req g) = Return r /\ model r = mock_model) /\
  (forall response,
     net (task_post G req) = inl response ->
     status_code response = 200 ->
     run_task G net req g = run_task (with_mock false G) net req g).
Proof.
  intros Hm. split.
  - intros Ho.
    assert (Hf : falls_back G (net (task_post G req)) = true).
    { destruct (net (task_post G req)) as [response | e]; [| exact Ho].
      simpl. rewrite Hm, orb_true_r. apply Z.eqb_neq in Ho. rewrite Ho.
      reflexivity. }
    destruct (run_task_falls_back G net req g Hf)
      as (phrase & offset & out & _ & _ & _ & Hr).
    eexists. rewrite Hr. split; reflexivity.
  - intros response Hn Hs. rewrite !run_task_stages.
    change (task_post (with_mock false G) req) with (task_post G req).
    rewrite (fetch_200 G _ _ _ _ Hn Hs).
    rewrite (fetch_200 (with_mock false G) net req g response Hn Hs).
    reflexivity.
Qed.

(** C2. [POST /task] raises an [HTTPException] exactly when the upstream
    call completes with a status that is neither 200 nor one of 401, 403,
    500, 503 while the mock flag is off, and then with that status and the
    upstream body as detail; on 401, 403, 500, 503 and on a connection error
    or timeout ([httpx.RequestError], [httpx.ConnectError],
    [asyncio.TimeoutError]) it returns a response built from the mock
    generator. *)
Theorem http_error_iff_unmapped_status G net req g :
  (forall s d,
     (snd (run_task G net req g) = HTTPException s d) <->
     (exists response,
        net (task_post G req) = inl response /\
        status_code response <> 200 /\
        (status_code response ∉ [401; 403; 500; 503]) /\
        USE_MOCK G = false /\
        s = status_code response /\ d = text response)) /\
  ((exists response,
      net (task_post G req) = inl response /\
      status_code response ∈ [401; 403; 500; 503])
   \/ (exists e,
         net (task_post G req) = inr e /\
         e ∈ [RequestError; ConnectError; TimeoutError]) ->
   exists phrase offset out,
     phrase ∈ MOCK_RESPONSES /\ 10 <= offset <= 50 /\ 50 <= out <= 300 /\
     snd (run_task G net req g) =
     Return {| model := mock_model;
               output_text := mock_text phrase (task req);
               input_tokens := Some (Z.of_nat (length (split (task req))) + offset);
               output_tokens := Some out |}).
Proof.
  split.
  - intros s d. rewrite run_task_stages. cbn [snd]. split.
    + intros Hr.
      destruct (fetch G net req g) as [data | s' d' | e] eqn:Hf;
        cbn [mbind result_bind] in Hr; try discriminate Hr.
      { destruct (no_http_extract data s d Hr). }
      injection Hr as -> ->.
      destruct (net (task_post G req)) as [response | e] eqn:Hn.
      * exists response. split; [reflexivity |].
        destruct (Z.eq_dec (status_code response) 200) as [Hs | Hs].
        { rewrite (fetch_200 _ _ _ _ _ Hn Hs) in Hf. unfold response_json in Hf.
          destruct (json_of response); discriminate Hf. }
        destruct (falls_back G (inl response)) eqn:Hfb.
        { rewrite <- Hn in Hfb. rewrite (fetch_falls_back _ _ _ _ Hfb) in Hf.
          destruct (mock_body_shape (task req) g) as (? & ? & ? & _ & _ & _ & Hm).
          rewrite Hm in Hf. discriminate Hf. }
        simpl in Hfb. pose proof Hs as Hs'. apply Z.eqb_neq in Hs'.
        rewrite Hs' in Hfb. simpl in Hfb. apply orb_false_iff in Hfb as [Hl Hm].
        apply bool_decide_eq_false_1 in Hl.
        rewrite (fetch_unmapped _ _ _ _ _ Hn Hs Hl Hm) in Hf.
        injection Hf as <- <-. auto.
      * destruct (caught e) eqn:Hc.
        { assert (Hfb : falls_back G (net (task_post G req)) = true)
            by (rewrite Hn; exact Hc).
          rewrite (fetch_falls_back _ _ _ _ Hfb) in Hf.
          destruct (mock_body_shape (task req) g) as (? & ? & ? & _ & _ & _ & Hm).
          rewrite Hm in Hf. discriminate Hf. }
        rewrite (fetch_uncaught _ _ _ _ _ Hn Hc) in Hf. discriminate Hf.
    + intros (response & Hn & Hs & Hl & Hm & -> & ->).
      rewrite (fetch_unmapped _ _ _ _ _ Hn Hs Hl Hm). reflexivity.
  - intros Ho.
    assert (Hf : falls_back G (net (task_post G req)) = true).
    { destruct Ho as [(response & -> & Hl) | (e & -> & Hc)];
        [| apply caught_iff; exact Hc].
      simpl. rewrite (bool_decide_eq_true_2 _ Hl). simpl.
      rewrite andb_true_r. apply negb_true_iff, Z.eqb_neq. intros E. rewrite E in Hl.
      exact (bool_decide_eq_false_1 (200 ∈ [401; 403; 500; 503]) eq_refl Hl). }
    destruct (run_task_falls_back G net req g Hf)
      as (phrase & offset & out & Hin & Hoff & Hout & Hr).
    exists phrase, offset, out. rewrite Hr. auto.
Qed.

(** C3. Whenever [POST /task] returns a response, its [output_text] is the
    newline-separated join, in order, of the text of exactly the content
    blocks of type ["text"] of the body it was built from, be it the
    upstream body of a 200 or the mock body. *)
Theorem output_text_joins_text_blocks G net req g r :
  snd (run_task G net req g) = Return r ->
  exists data,
    effective_body G net req g data /\
    output_text r =
    join nl (map block_text (List.filter is_text_block (content_blocks data))).
Proof.
  rewrite run_task_stages. cbn [snd]. intros Hr.
  bind_inv Hr data Hdata. exists data.
  split; [apply fetch_Return_inv; exact Hdata |].
  apply (extract_output_text data r Hr).
Qed.

End TaskClaims.

(** C1 as stated fails: with the flag on, a 200 from upstream is passed
    through, whatever model it names. *)
Lemma forced_mock_passes_200_through :
  USE_MOCK (Sample.globals true) = true /\
  snd (run_task (V := strict_validator) (Sample.globals true)
         (Sample.answers (inl Sample.genuine)) Sample.req Sample.draws) =
  Return {| model := py "claude-3-5-sonnet-20241022";
            output_text := py "Consistency." ++ nl ++ py "Availability.";
            input_tokens := Some 12;
            output_tokens := Some 7 |} /\
  ~ (exists r,
       snd (run_task (V := strict_validator) (Sample.globals true)
              (Sample.answers (inl Sample.genuine)) Sample.req Sample.draws) =
       Return r /\ model r = mock_model).
Proof.
  split; [reflexivity |].
  split; [vm_compute; reflexivity |].
  intros (r & Hr & Hm). vm_compute in Hr. injection Hr as <-.
  vm_compute in Hm. discriminate Hm.
Qed.

Lemma forced_mock_unless_200_witness :
  exists r,
    snd (run_task (V := strict_validator) (Sample.globals true)
           (Sample.answers (inl (Sample.status 418))) Sample.req Sample.draws) =
    Return r /\ model r = mock_model.
Proof.
  apply (proj1 (forced_mock_unless_200 (V := strict_validator)
                  (Sample.globals true) (Sample.answers (inl (Sample.status 418)))
                  Sample.req Sample.draws eq_refl)).
  simpl. lia.
Defined.

Lemma output_text_joins_text_blocks_witness :
  exists data,
    effective_body (Sample.globals false) (Sample.answers (inl Sample.genuine))
      Sample.req Sample.draws data /\
    py "Consistency." ++ nl ++ py "Availability." =
    join nl (map block_text (List.filter is_text_block (content_blocks data))).
Proof.
  apply (output_text_joins_text_blocks (V := strict_validator)
           (Sample.globals false) (Sample.answers (inl Sample.genuine))
           Sample.req Sample.draws
           {| model := py "claude-3-5-sonnet-20241022";
              output_text := py "Consistency." ++ nl ++ py "Availability.";
              input_tokens := Some 12;
              output_tokens := Some 7 |}).
  vm_compute. reflexivity.
Defined.

Lemma http_error_iff_unmapped_status_witness :
  snd (run_task (V := strict_validator) (Sample.globals false)
         (Sample.answers (inl (Sample.status 418))) Sample.req Sample.draws) =
  HTTPException 418 (py "upstream says no") /\
  exists phrase offset out,
    phrase ∈ MOCK_RESPONSES /\ 10 <= offset <= 50 /\ 50 <= out <= 300 /\
    snd (run_task (V := strict_validator) (Sample.globals false)
           (Sample.answers (inr ConnectError)) Sample.req Sample.draws) =
    Return {| model := mock_model;
              output_text := mock_text phrase (task Sample.req);
              input_tokens :=
                Some (Z.of_nat (length (split (task Sample.req))) + offset);
              output_tokens := Some out |}.
Proof.
  split.
  - apply (proj1 (http_error_iff_unmapped_status (V := strict_validator)
                    (Sample.globals false)
                    (Sample.answers (inl (Sample.status 418)))
                    Sample.req Sample.draws)).
    exists (Sample.status 418).
    split; [reflexivity |]. split; [simpl; lia |].
    split; [exact (bool_decide_eq_false_1 (418 ∈ [401; 403; 500; 503]) eq_refl) |].
    split; [reflexivity |]. split; reflexivity.
  - apply (proj2 (http_error_iff_unmapped_status (V := strict_validator)
                    (Sample.globals false) (Sample.answers (inr ConnectError))
                    Sample.req Sample.draws)).
    right. exists ConnectError. split; [reflexivity |].
    rewrite !elem_of_cons. auto.
Defined.

(** ** The stream *)

Lemma chunks_emit_events (events_sequence : list pystr) (g : rng) :
  chunks (emit_events events_sequence g) = map data_message events_sequence.
Proof.
  revert g. induction events_sequence as [| event rest IH]; intros g.
  - reflexivity.
  - cbn [emit_events next_draw]. unfold chunks in *. cbn [omap list_omap].
    rewrite IH. reflexivity.
Qed.

(** C4. With a non-empty collection of event sequences, one run of the
    [/stream] generator sends one message [data: <payload>] per payload of
    the selected sequence, in the stored order, then the one terminal
    message [event: done] / [data: Sequence completed], and nothing else. *)
Theorem stream_emits_sequence_then_done (G : Globals) (g : rng) :
  STREAM_EVENTS G <> [] ->
  exists events_sequence es,
    events_sequence ∈ STREAM_EVENTS G /\
    event_generator G g = Return es /\
    chunks es = map data_message events_sequence ++ [done_message].
Proof.
  intros Hne.
  destruct (choice_nonempty (STREAM_EVENTS G) g Hne) as (events_sequence & Hin & Hc).
  exists events_sequence. eexists. split; [exact Hin |].
  unfold event_generator. destruct (STREAM_EVENTS G) as [| s0 ss] eqn:E;
    [congruence |].
  rewrite Hc. cbn [mbind result_bind]. split; [reflexivity |].
  unfold chunks. rewrite omap_app. fold (chunks (emit_events events_sequence (snd (next_draw g)))).
  rewrite chunks_emit_events. reflexivity.
Qed.

Lemma stream_emits_sequence_then_done_witness :
  exists events_sequence es,
    events_sequence ∈ [ [py "a"; py "b"] ] /\
    event_generator (Sample.globals false) Sample.draws = Return es /\
    chunks es = map data_message events_sequence ++ [done_message].
Proof.
  apply (stream_emits_sequence_then_done (Sample.globals false) Sample.draws).
  discriminate.
Defined.

(** C7. With an empty collection of event sequences, one run of the
    [/stream] generator sends exactly one message, [event: error] /
    [data: No events loaded], and ends: no [data:] payload message, no
    terminal done message. *)
Theorem stream_empty_emits_error (G : Globals) (g : rng) :
  STREAM_EVENTS G = [] ->
  event_generator G g = Return [Yield error_message] /\
  chunks [Yield error_message] = [error_message].
Proof.
  intros E. unfold event_generator. rewrite E. split; reflexivity.
Qed.

Lemma stream_empty_emits_error_witness :
  event_generator Sample.no_data Sample.draws = Return [Yield error_message] /\
  chunks [Yield error_message] = [error_message].
Proof.
  apply (stream_empty_emits_error Sample.no_data Sample.draws). reflexivity.
Defined.

(** ** [POST /task/send] *)

(** C8. With an empty task collection, [POST /task/send] fails with status
    500 and the detail ["No tasks loaded from tasks.json"], having made no
    upstream call and built no response. *)
Theorem send_without_tasks `{Validator} (G : Globals) (net : upstream) (g : rng) :
  TASKS G = [] ->
  run_random_task G net g =
  ([], HTTPException 500 (py "No tasks loaded from tasks.json")).
Proof.
  intros E. unfold run_random_task. rewrite E. reflexivity.
Qed.

Lemma send_without_tasks_witness :
  run_random_task (V := strict_validator) Sample.no_data
    (Sample.answers (inl Sample.genuine)) Sample.draws =
  ([], HTTPException 500 (py "No tasks loaded from tasks.json")).
Proof.
  apply (send_without_tasks (H := strict_validator)). reflexivity.
Defined.

(** C5. With a non-empty task collection, what [POST /task/send] does with
    the entry it selects is what [POST /task] does with the request built
    from that entry (task, system_prompt or the default, max_tokens 1024),
    the network and the remaining draws being the same. *)
Theorem send_delegates `{Validator} (G : Globals) (net : upstream) (g : rng) :
  TASKS G <> [] ->
  exists entry,
    entry ∈ TASKS G /\
    choice (TASKS G) g = Return (entry, snd (next_draw g)) /\
    run_random_task G net g = delegate_to_run_task G net entry (snd (next_draw g)).
Proof.
  intros Hne.
  destruct (choice_nonempty (TASKS G) g Hne) as (entry & Hin & Hc).
  exists entry. split; [exact Hin |]. split; [exact Hc |].
  unfold run_random_task, delegate_to_run_task, entry_request.
  destruct (TASKS G) as [| e0 es] eqn:E; [congruence |].
  rewrite Hc. cbn [mbind result_bind py_getitem py_get].
  destruct (lookup_key (py "task") entry) as [t |]; [| reflexivity].
  cbn [mbind result_bind].
  destruct (new_TaskRequest t _ (JInt 1024)) as [req | s d | e]; reflexivity.
Qed.

Lemma send_delegates_witness :
  exists entry,
    entry ∈ TASKS (Sample.globals false) /\
    choice (TASKS (Sample.globals false)) Sample.draws =
    Return (entry, snd (next_draw Sample.draws)) /\
    run_random_task (V := strict_validator) (Sample.globals false)
      (Sample.answers (inr ConnectError)) Sample.draws =
    delegate_to_run_task (Sample.globals false)
      (Sample.answers (inr ConnectError)) entry (snd (next_draw Sample.draws)).
Proof.
  apply (send_delegates (H := strict_validator)). discriminate.
Defined.

(** ** Bodies of a 200 *)

(** C9, as amended. For a 200 whose body is a [dict] with a [str] model, a
    content that (when present) is a list of [dict] blocks whose text blocks
    carry a [str] text, and a usage that (when present) is a [dict] whose
    two counts are each absent, [None] or an [int], [POST /task] returns a
    response; without a ["content"] key its [output_text] is empty, without
    a ["usage"] key both its counts are [None]. *)
Theorem well_formed_200_returns `{Validator} G net req g response d :
  net (task_post G req) = inl response ->
  status_code response = 200 ->
  json_of response = Some (JObj d) ->
  body_ok (JObj d) ->
  exists r,
    snd (run_task G net req g) = Return r /\
    (lookup_key (py "content") d = None -> output_text r = []) /\
    (lookup_key (py "usage") d = None ->
     input_tokens r = None /\ output_tokens r = None).
Proof.
  intros Hn Hs Hj Hok.
  rewrite run_task_stages. cbn [snd].
  rewrite (fetch_200 _ _ _ _ _ Hn Hs). unfold response_json. rewrite Hj.
  cbn [mbind result_bind]. rewrite (extract_body_ok _ Hok).
  eexists. split; [reflexivity |].
  cbn [output_text input_tokens output_tokens].
  unfold joined_text, content_blocks, usage_token.
  split; [intros -> | intros ->; split]; reflexivity.
Qed.

Lemma well_formed_200_returns_witness :
  exists r,
    snd (run_task (V := strict_validator) (Sample.globals false)
           (Sample.answers (inl Sample.bare)) Sample.req Sample.draws) = Return r /\
    (lookup_key (py "content") [ (py "model", JStr (py "claude-3-opus-20240229")) ]
       = None -> output_text r = []) /\
    (lookup_key (py "usage") [ (py "model", JStr (py "claude-3-opus-20240229")) ]
       = None -> input_tokens r = None /\ output_tokens r = None).
Proof.
  apply (well_formed_200_returns (H := strict_validator) (Sample.globals false)
           (Sample.answers (inl Sample.bare)) Sample.req Sample.draws Sample.bare).
  - reflexivity.
  - reflexivity.
  - reflexivity.
  - eexists. split; [reflexivity |].
    split; [eexists; reflexivity |]. split; exact I.
Defined.

(** C9 as stated fails: a text block has a ["text"] field, but it holds a
    number, and the join raises. *)
Lemma number_text_raises :
  json_of Sample.number_text = Some
    (JObj [ (py "model", JStr (py "claude-3-opus-20240229"));
            (py "content",
             JArr [ JObj [ (py "type", JStr (py "text"));
                           (py "text", JInt 5) ] ]) ]) /\
  (forall data, json_of Sample.number_text = Some data -> has_model_and_texts data) /\
  snd (run_task (V := strict_validator) (Sample.globals false)
         (Sample.answers (inl Sample.number_text)) Sample.req Sample.draws) =
  Raise TypeError.
Proof.
  split; [reflexivity |]. split; [| vm_compute; reflexivity].
  intros data [= <-]. eexists. split; [reflexivity |].
  split; [eexists; reflexivity |].
  cbn. constructor; [| constructor].
  intros _. eexists. split; [reflexivity |]. eexists. reflexivity.
Qed.

(** ** The model at work *)

Example stream_a_b :
  (es ← event_generator (Sample.globals false) Sample.draws; Return (chunks es)) =
  Return [ py "data: a" ++ nl ++ nl; py "data: b" ++ nl ++ nl; done_message ].
Proof. vm_compute. reflexivity. Qed.

Example send_on_connect_error :
  run_random_task (V := strict_validator) (Sample.globals false)
    (Sample.answers (inr ConnectError)) Sample.draws =
  ([ task_post (Sample.globals false)
       {| task := py "Write a binary search";
          system_prompt := Some (py "You are a patient teacher");
          max_tokens := 1024 |} ],
   Return {| model := mock_model;
             output_text :=
               mock_text (py "Отличный вопрос! Вот краткое объяснение:")
                 (py "Write a binary search");
             input_tokens := Some 31;
             output_tokens := Some 74 |}).
Proof. vm_compute. reflexivity. Qed.

Example uncaught_error_propagates :
  snd (run_task (V := strict_validator) (Sample.globals true)
         (Sample.answers (inr OtherError)) Sample.req Sample.draws) =
  Raise OtherError.
Proof. reflexivity. Qed.

(** * Further properties of the handlers *)

Section TaskHandler.

Context {V : Validator}.

(** X1. The mock flag changes what [POST /task] does only when upstream
    answers with a status outside 200, 401, 403, 500, 503: on every other
    outcome the handler does the same with the flag on and off. *)
Theorem flag_matters_on_unmapped_status_only G net req g (b : bool) :
  (forall response,
     net (task_post G req) = inl response ->
     status_code response ∈ [200; 401; 403; 500; 503]) ->
  run_task (with_mock b G) net req g = run_task G net req g.
Proof.
  intros Hmapped. rewrite !run_task_stages.
  change (task_post (with_mock b G) req) with (task_post G req).
  assert (Hf : fetch (with_mock b G) net req g = fetch G net req g);
    [| rewrite Hf; reflexivity].
  destruct (net (task_post G req)) as [response | e] eqn:Hn.
  - specialize (Hmapped response eq_refl).
    destruct (Z.eq_dec (status_code response) 200) as [Hs | Hs].
    + rewrite (fetch_200 G net req g response Hn Hs).
      apply (fetch_200 (with_mock b G) net req g response Hn Hs).
    + assert (Hl : status_code response ∈ [401; 403; 500; 503]).
      { apply elem_of_cons in Hmapped as [? | ?]; [contradiction | assumption]. }
      rewrite !fetch_falls_back; [reflexivity | |];
        change (task_post (with_mock b G) req) with (task_post G req);
        rewrite Hn; simpl; rewrite (bool_decide_eq_true_2 _ Hl);
        apply Z.eqb_neq in Hs; rewrite Hs; reflexivity.
  - unfold fetch, await_post.
    change (task_post (with_mock b G) req) with (task_post G req).
    rewrite Hn. reflexivity.
Qed.

(** X2. The fallback hides neither a 200 whose body does not decode nor
    an exception outside the three classes the handler names: the first
    ends in an exception that is none of the three, the second in the
    exception itself; no mock is built, with the flag on as with it off. *)
Theorem fallback_does_not_hide G net req g :
  (forall response,
     net (task_post G req) = inl response ->
     status_code response = 200 -> json_of response = None ->
     exists e,
       snd (run_task G net req g) = Raise e /\
       (e ∉ [RequestError; ConnectError; TimeoutError])) /\
  (forall e,
     net (task_post G req) = inr e ->
     (e ∉ [RequestError; ConnectError; TimeoutError]) ->
     snd (run_task G net req g) = Raise e).
Proof.
  split.
  - intros response Hn Hs Hj. exists JSONDecodeError.
    rewrite run_task_stages. cbn [snd].
    rewrite (fetch_200 _ _ _ _ _ Hn Hs). unfold response_json. rewrite Hj.
    split; [reflexivity |].
    intros Hc. apply caught_iff in Hc. discriminate Hc.
  - intros e Hn Hc. rewrite run_task_stages. cbn [snd].
    assert (Hf : caught e = false).
    { destruct (caught e) eqn:E; [| reflexivity].
      destruct (Hc (proj1 (caught_iff e) E)). }
    rewrite (fetch_uncaught _ _ _ _ _ Hn Hf). reflexivity.
Qed.

End TaskHandler.

Lemma flag_matters_on_unmapped_status_only_witness :
  run_task (V := strict_validator) (with_mock true (Sample.globals false))
    (Sample.answers (inl (Sample.status 503))) Sample.req Sample.draws =
  run_task (Sample.globals false)
    (Sample.answers (inl (Sample.status 503))) Sample.req Sample.draws.
Proof.
  apply (flag_matters_on_unmapped_status_only (V := strict_validator)).
  intros response [= <-]. simpl.
  apply (bool_decide_eq_true_1 (503 ∈ [200; 401; 403; 500; 503])). reflexivity.
Defined.

Lemma fallback_does_not_hide_witness :
  (exists e,
     snd (run_task (V := strict_validator) (Sample.globals true)
            (Sample.answers (inl {| status_code := 200;
                                    text := py "<html>";
                                    json_of := None |}))
            Sample.req Sample.draws) = Raise e /\
     (e ∉ [RequestError; ConnectError; TimeoutError])) /\
  snd (run_task (V := strict_validator) (Sample.globals true)
         (Sample.answers (inr OtherError)) Sample.req Sample.draws) =
  Raise OtherError.
Proof.
  split.
  - apply (proj1 (fallback_does_not_hide (V := strict_validator)
                    (Sample.globals true) _ Sample.req Sample.draws)
             {| status_code := 200; text := py "<html>"; json_of := None |});
      reflexivity.
  - apply (proj2 (fallback_does_not_hide (V := strict_validator)
                    (Sample.globals true) (Sample.answers (inr OtherError))
                    Sample.req Sample.draws) OtherError); [reflexivity |].
    intros Hc. apply caught_iff in Hc. discriminate Hc.
Defined.

Lemma comprehension_join_blocks_ok (blocks vs : list json) (ss : list pystr) :
  comprehension text_cond text_elt blocks = Return vs ->
  all_str vs = Return ss ->
  Forall block_ok blocks.
Proof.
  revert vs ss. induction blocks as [| b blocks IH]; intros vs ss Hc Hs;
    [constructor |].
  cbn [comprehension] in Hc.
  destruct b as [| | | | | |d]; try discriminate Hc.
  rewrite text_cond_JObj in Hc. cbn [mbind result_bind] in Hc.
  destruct (is_text_block (JObj d)) eqn:E.
  - rewrite text_elt_JObj in Hc.
    destruct (lookup_key (py "text") d) as [v|] eqn:Ev; [| discriminate Hc].
    cbn [mbind result_bind] in Hc.
    destruct (comprehension text_cond text_elt blocks) as [vs'| |] eqn:Ec;
      try discriminate Hc.
    cbn [mbind result_bind mret result_ret] in Hc. injection Hc as <-.
    destruct v as [| | | |s| |]; try discriminate Hs. cbn [all_str] in Hs.
    destruct (all_str vs') as [ss'| |] eqn:E'; try discriminate Hs.
    constructor; [| eapply IH; eauto].
    exists d. split; [reflexivity |]. intros _. exists s. exact Ev.
  - constructor; [| eapply IH; eauto].
    exists d. split; [reflexivity |]. rewrite E. discriminate.
Qed.

Section Bodies.

Context {V : Validator}.

Lemma new_TaskResponse_model (m i u : json) (o : pystr) (r : TaskResponse) :
  new_TaskResponse m (JStr o) i u = Return r -> validate_str m = Some (model r).
Proof.
  unfold new_TaskResponse. rewrite validate_str_JStr.
  destruct (validate_str m); [| discriminate].
  destruct (validate_optional validate_int i); [| discriminate].
  destruct (validate_optional validate_int u); [| discriminate].
  intros [= <-]. reflexivity.
Qed.

(** X3. When [POST /task] returns a response on a 200, the upstream body
    was a [dict] with a ["model"] the response's model was validated from,
    every block of its content list was a [dict] (with a [str] text if of
    type ["text"]), and its ["usage"], if any, was a [dict]. So a body
    without ["model"], with a [None] usage or with a non-[str] text never
    gives a response. *)
Theorem response_needs_well_shaped_body G net req g response data r :
  net (task_post G req) = inl response ->
  status_code response = 200 ->
  json_of response = Some data ->
  snd (run_task G net req g) = Return r ->
  exists d,
    data = JObj d /\
    (exists v, lookup_key (py "model") d = Some v /\
               validate_str v = Some (model r)) /\
    Forall block_ok (content_blocks data) /\
    match lookup_key (py "usage") d with
    | None | Some (JObj _) => True
    | _ => False
    end.
Proof.
  intros Hn Hs Hj. rewrite run_task_stages. cbn [snd].
  rewrite (fetch_200 _ _ _ _ _ Hn Hs). unfold response_json. rewrite Hj.
  cbn [mbind result_bind]. unfold extract. intros H.
  bind_inv H content Hcontent. bind_inv H blocks Hblocks.
  bind_inv H vs Hvs. bind_inv H m Hm. bind_inv H o Ho.
  bind_inv H u1 Hu1. bind_inv H i Hi. bind_inv H u2 Hu2. bind_inv H u Hu.
  apply new_TaskResponse_model in H.
  destruct data as [| | | | | |d]; try discriminate Hcontent.
  exists d. split; [reflexivity |].
  cbn [py_get py_getitem] in *.
  split.
  { destruct (lookup_key (py "model") d) as [v|]; [| discriminate Hm].
    injection Hm as ->. eauto. }
  split.
  { unfold py_join in Ho. bind_inv Ho ss Hss.
    change (comprehension _ _ blocks)
      with (comprehension text_cond text_elt blocks) in Hvs.
    pose proof (comprehension_join_blocks_ok blocks vs ss Hvs Hss) as Hok.
    injection Hcontent as <-. unfold content_blocks.
    destruct (lookup_key (py "content") d) as [[| | | |s|l|d']|];
      try discriminate Hblocks; cbn [py_iter] in Hblocks;
      injection Hblocks as <-; try exact Hok; constructor. }
  injection Hu1 as <-.
  destruct (lookup_key (py "usage") d) as [[]|]; try exact I; discriminate Hi.
Qed.

(** X4. On a 200 whose body is well formed ([body_ok]) the response of
    [POST /task] carries the body's model, the joined text of its text
    blocks and the two counts of its usage, [None] for a count that is
    absent or [None]. *)
Theorem well_formed_200_response G net req g response data :
  net (task_post G req) = inl response ->
  status_code response = 200 ->
  json_of response = Some data ->
  body_ok data ->
  snd (run_task G net req g) =
  Return {| model := body_model data;
            output_text := joined_text data;
            input_tokens := usage_token data (py "input_tokens");
            output_tokens := usage_token data (py "output_tokens") |}.
Proof.
  intros Hn Hs Hj Hok. rewrite run_task_stages. cbn [snd].
  rewrite (fetch_200 _ _ _ _ _ Hn Hs). unfold response_json. rewrite Hj.
  cbn [mbind result_bind]. apply (extract_body_ok data Hok).
Qed.

End Bodies.

Lemma response_needs_well_shaped_body_witness :
  exists d,
    JObj [ (py "model", JStr (py "claude-3-opus-20240229")) ] = JObj d /\
    (exists v, lookup_key (py "model") d = Some v /\
               validate_str v = Some (py "claude-3-opus-20240229")) /\
    Forall block_ok
      (content_blocks (JObj [ (py "model", JStr (py "claude-3-opus-20240229")) ])) /\
    match lookup_key (py "usage") d with
    | None | Some (JObj _) => True
    | _ => False
    end.
Proof.
  apply (response_needs_well_shaped_body (V := strict_validator)
           (Sample.globals false) (Sample.answers (inl Sample.bare))
           Sample.req Sample.draws Sample.bare
           (JObj [ (py "model", JStr (py "claude-3-opus-20240229")) ])
           {| model := py "claude-3-opus-20240229";
              output_text := [];
              input_tokens := None;
              output_tokens := None |});
    reflexivity.
Defined.

Lemma genuine_body_ok :
  forall data, json_of Sample.genuine = Some data -> body_ok data.
Proof.
  intros data [= <-]. eexists. split; [reflexivity |].
  split; [eexists; reflexivity |]. split.
  - cbn. repeat apply Forall_cons_2; try apply Forall_nil_2;
      (eexists; split; [reflexivity |]);
      first [ intros _; eexists; reflexivity
            | intros Hf; vm_compute in Hf; discriminate Hf ].
  - cbn. split; exact I.
Qed.

Lemma well_formed_200_response_witness :
  exists data,
    json_of Sample.genuine = Some data /\
    snd (run_task (V := strict_validator) (Sample.globals false)
           (Sample.answers (inl Sample.genuine)) Sample.req Sample.draws) =
    Return {| model := body_model data;
              output_text := joined_text data;
              input_tokens := usage_token data (py "input_tokens");
              output_tokens := usage_token data (py "output_tokens") |}.
Proof.
  eexists. split; [reflexivity |].
  apply (well_formed_200_response (V := strict_validator)
           (Sample.globals false) (Sample.answers (inl Sample.genuine))
           Sample.req Sample.draws Sample.genuine);
    [reflexivity | reflexivity | reflexivity |].
  apply genuine_body_ok. reflexivity.
Defined.

(** ** Sizes of a mock answer *)

Lemma MOCK_RESPONSES_length :
  Forall (fun phrase => (22 <= length phrase <= 47)%nat) MOCK_RESPONSES.
Proof.
  unfold MOCK_RESPONSES.
  repeat (apply Forall_cons_2; [vm_compute; lia |]). apply Forall_nil_2.
Qed.

Lemma mock_text_length (phrase task : pystr) :
  length (mock_text phrase task)
  = (length phrase + 15 + Nat.min 100 (length task))%nat.
Proof.
  unfold mock_text. rewrite !length_app, length_take.
  change (length nl) with 1%nat. change (length (py "...")) with 3%nat.
  change (length marker) with 8%nat. lia.
Qed.

(** A run being read counts for one more word. *)
Lemma split_from_length (cur s : pystr) :
  (2 * length (split_from cur s)
   <= match cur with
      | [] => length s + 1
      | _ => 2 + length s
      end)%nat.
Proof.
  revert cur. induction s as [| c r IH]; intros cur.
  - destruct cur; simpl; lia.
  - cbn [split_from length]. destruct (isspace c).
    + specialize (IH []). cbn [length] in IH.
      destruct cur; cbn [length]; lia.
    + specialize (IH (c :: cur)). cbn [length] in IH.
      destruct cur; lia.
Qed.

Lemma split_length (s : pystr) :
  (2 * length (split s) <= length s + 1)%nat.
Proof. apply (split_from_length [] s). Qed.

Lemma split_blank (s : pystr) :
  Forall (fun c => isspace c = true) s -> split s = [].
Proof.
  unfold split. induction 1 as [| c r Hc _ IH]; [reflexivity |].
  cbn [split_from]. rewrite Hc. exact IH.
Qed.

Section MockSizes.

Context {V : Validator}.

(** X5. However long the task, the [output_text] of a mock answer of
    [POST /task] has between 37 and 162 characters: the phrase, fifteen
    fixed characters and at most 100 characters of the task. *)
Theorem mock_output_text_bounded G net req g :
  falls_back G (net (task_post G req)) = true ->
  exists r,
    snd (run_task G net req g) = Return r /\
    (37 <= length (output_text r) <= 162)%nat /\
    (length (output_text r) <= 62 + length (task req))%nat.
Proof.
  intros Hf.
  destruct (run_task_falls_back G net req g Hf)
    as (phrase & offset & out & Hin & _ & _ & Hr).
  eexists. rewrite Hr. split; [reflexivity |]. cbn [output_text].
  rewrite mock_text_length.
  pose proof (proj1 (Forall_forall _ _) MOCK_RESPONSES_length phrase Hin) as Hp.
  cbv beta in Hp. lia.
Qed.

(** X6. The [input_tokens] of a mock answer of [POST /task] is at least 10
    and at most 50 plus half the length of the task (rounded up); it is at
    most 50 when the task is empty or all white space. *)
Theorem mock_input_tokens_bounded G net req g :
  falls_back G (net (task_post G req)) = true ->
  exists r v,
    snd (run_task G net req g) = Return r /\
    input_tokens r = Some v /\
    10 <= v <= 50 + (Z.of_nat (length (task req)) + 1) / 2 /\
    (Forall (fun c => isspace c = true) (task req) -> v <= 50).
Proof.
  intros Hf.
  destruct (run_task_falls_back G net req g Hf)
    as (phrase & offset & out & _ & Ho & _ & Hr).
  eexists. eexists. rewrite Hr. split; [reflexivity |].
  split; [reflexivity |]. split.
  - pose proof (split_length (task req)) as Hl.
    assert (Z.of_nat (length (split (task req)))
            <= (Z.of_nat (length (task req)) + 1) / 2)
      by (apply Z.div_le_lower_bound; lia).
    lia.
  - intros Hb. rewrite (split_blank _ Hb). simpl. lia.
Qed.

End MockSizes.

Lemma mock_output_text_bounded_witness :
  exists r,
    snd (run_task (V := strict_validator) (Sample.globals false)
           (Sample.answers (inr TimeoutError)) Sample.req Sample.draws) = Return r /\
    (37 <= length (output_text r) <= 162)%nat /\
    (length (output_text r) <= 62 + length (task Sample.req))%nat.
Proof.
  apply (mock_output_text_bounded (V := strict_validator)). reflexivity.
Defined.

Lemma mock_input_tokens_bounded_witness :
  exists r v,
    snd (run_task (V := strict_validator) (Sample.globals false)
           (Sample.answers (inr TimeoutError)) Sample.req Sample.draws) = Return r /\
    input_tokens r = Some v /\
    10 <= v <= 50 + (Z.of_nat (length (task Sample.req)) + 1) / 2 /\
    (Forall (fun c => isspace c = true) (task Sample.req) -> v <= 50).
Proof.
  apply (mock_input_tokens_bounded (V := strict_validator)). reflexivity.
Defined.

(** * Further properties of [POST /task/send] *)

Lemma choice_Return_inv {A} (seq : list A) (g g' : rng) (x : A) :
  choice seq g = Return (x, g') ->
  seq <> [] /\ x ∈ seq /\ g' = snd (next_draw g).
Proof.
  intros Hc. assert (Hne : seq <> []).
  { intros ->. unfold choice in Hc. simpl in Hc. discriminate Hc. }
  destruct (choice_nonempty seq g Hne) as (y & Hin & Hy).
  rewrite Hy in Hc. injection Hc as -> <-. auto.
Qed.

Section Send.

Context {V : Validator}.

Lemma run_random_task_delegates G net g entry g' :
  choice (TASKS G) g = Return (entry, g') ->
  run_random_task G net g = delegate_to_run_task G net entry g'.
Proof.
  intros Hc. destruct (choice_Return_inv _ _ _ _ Hc) as (Hne & _ & _).
  unfold run_random_task, delegate_to_run_task, entry_request.
  destruct (TASKS G) as [| e0 es] eqn:E; [congruence |].
  rewrite Hc. cbn [mbind result_bind py_getitem py_get].
  destruct (lookup_key (py "task") entry) as [t |]; [| reflexivity].
  cbn [mbind result_bind].
  destruct (new_TaskRequest t _ (JInt 1024)) as [req | s d | e]; reflexivity.
Qed.

Lemma entry_request_str (entry : pydict) (t : pystr) :
  lookup_key (py "task") entry = Some (JStr t) ->
  match lookup_key (py "system_prompt") entry with
  | None | Some JNull | Some (JStr _) => True
  | _ => False
  end ->
  entry_request entry =
  Return {| task := t; system_prompt := entry_system entry; max_tokens := 1024 |}.
Proof.
  intros Ht Hs. unfold entry_request, entry_system, py_getitem. rewrite Ht.
  cbn [mbind result_bind]. unfold new_TaskRequest.
  rewrite validate_str_JStr, validate_int_JInt.
  destruct (lookup_key (py "system_prompt") entry) as [[]|];
    try contradiction; cbn [validate_optional];
    rewrite ?validate_str_JStr; reflexivity.
Qed.

Lemma no_http_entry_request (entry : pydict) : no_http (entry_request entry).
Proof.
  unfold entry_request. apply no_http_bind; [apply no_http_py_getitem |].
  intros t s d. unfold new_TaskRequest.
  destruct (validate_str t); [| discriminate].
  match goal with |- context [validate_optional validate_str ?v] =>
    destruct (validate_optional validate_str v) end; [| discriminate].
  destruct (validate_int (JInt 1024)); discriminate.
Qed.

Lemma run_task_HTTPException_inv G net req g s d :
  snd (run_task G net req g) = HTTPException s d ->
  exists response,
    net (task_post G req) = inl response /\
    status_code response <> 200 /\
    (status_code response ∉ [401; 403; 500; 503]) /\
    USE_MOCK G = false /\
    s = status_code response /\ d = text response.
Proof.
  rewrite run_task_stages. cbn [snd]. intros Hr.
  destruct (fetch G net req g) as [data | s' d' | e] eqn:Hf;
    cbn [mbind result_bind] in Hr; try discriminate Hr.
  { destruct (no_http_extract data s d Hr). }
  injection Hr as -> ->.
  destruct (falls_back G (net (task_post G req))) eqn:Hfb.
  { rewrite (fetch_falls_back _ _ _ _ Hfb) in Hf.
    destruct (mock_body_shape (task req) g) as (? & ? & ? & _ & _ & _ & Hm).
    rewrite Hm in Hf. discriminate Hf. }
  destruct (net (task_post G req)) as [response | e] eqn:Hn.
  - exists response. split; [reflexivity |].
    destruct (Z.eq_dec (status_code response) 200) as [Hs | Hs].
    { rewrite (fetch_200 _ _ _ _ _ Hn Hs) in Hf. unfold response_json in Hf.
      destruct (json_of response); discriminate Hf. }
    simpl in Hfb. pose proof Hs as Hs'. apply Z.eqb_neq in Hs'.
    rewrite Hs' in Hfb. simpl in Hfb. apply orb_false_iff in Hfb as [Hl Hm].
    apply bool_decide_eq_false_1 in Hl.
    rewrite (fetch_unmapped _ _ _ _ _ Hn Hs Hl Hm) in Hf.
    injection Hf as <- <-. auto.
  - simpl in Hfb. rewrite (fetch_uncaught _ _ _ _ _ Hn Hfb) in Hf.
    discriminate Hf.
Qed.

(** X7. For a selected entry whose ["task"] is a [str] and whose
    ["system_prompt"] is absent, [None] or a [str], [POST /task/send] makes
    exactly one upstream call: to [/v1/messages] with the API key as bearer,
    the fixed model, [max_tokens] 1024, the entry's system prompt (the
    default when absent, none when [None]) and the task as the one user
    message. *)
Theorem send_posts_selected_task G net g entry g' t :
  choice (TASKS G) g = Return (entry, g') ->
  lookup_key (py "task") entry = Some (JStr t) ->
  match lookup_key (py "system_prompt") entry with
  | None | Some JNull | Some (JStr _) => True
  | _ => False
  end ->
  fst (run_random_task G net g) =
  [ {| base_url := py "https://api.anthropic.com";
       path := py "/v1/messages";
       authorization := py "Bearer " ++ ANTHROPIC_API_KEY G;
       post_json :=
         {| payload_model := py "claude-3-opus-20240229";
            payload_max_tokens := 1024;
            payload_system := entry_system entry;
            payload_messages := [(py "user", t)] |} |} ].
Proof.
  intros Hc Ht Hs. rewrite (run_random_task_delegates _ _ _ _ _ Hc).
  unfold delegate_to_run_task. rewrite (entry_request_str entry t Ht Hs).
  reflexivity.
Qed.

(** X8. A selected entry without a ["task"] key makes [POST /task/send]
    end in [KeyError] before any upstream call. *)
Theorem send_entry_without_task G net g entry g' :
  choice (TASKS G) g = Return (entry, g') ->
  lookup_key (py "task") entry = None ->
  run_random_task G net g = ([], Raise KeyError).
Proof.
  intros Hc Ht. rewrite (run_random_task_delegates _ _ _ _ _ Hc).
  unfold delegate_to_run_task, entry_request, py_getitem. rewrite Ht.
  reflexivity.
Qed.

(** X9. [POST /task/send] raises an [HTTPException] in two cases only: with
    status 500 when no task is loaded, and with the status and body of an
    upstream answer whose status is outside 200, 401, 403, 500, 503 while
    the mock flag is off. *)
Theorem send_http_error_iff G net g s d :
  snd (run_random_task G net g) = HTTPException s d <->
  (TASKS G = [] /\ s = 500 /\ d = py "No tasks loaded from tasks.json")
  \/ (exists entry req response,
        choice (TASKS G) g = Return (entry, snd (next_draw g)) /\
        entry_request entry = Return req /\
        net (task_post G req) = inl response /\
        status_code response <> 200 /\
        (status_code response ∉ [401; 403; 500; 503]) /\
        USE_MOCK G = false /\
        s = status_code response /\ d = text response).
Proof.
  split.
  - intros Hr. destruct (TASKS G) as [| e0 es] eqn:E.
    + left. unfold run_random_task in Hr. rewrite E in Hr. cbn [snd] in Hr.
      repeat split; congruence.
    + right. destruct (choice_nonempty (TASKS G) g) as (entry & _ & Hc);
        [congruence |].
      rewrite <- E. rewrite (run_random_task_delegates _ _ _ _ _ Hc) in Hr.
      unfold delegate_to_run_task in Hr.
      destruct (entry_request entry) as [req | s' d' | e] eqn:Hq.
      * destruct (run_task_HTTPException_inv _ _ _ _ _ _ Hr)
          as (response & Hn & Hs & Hl & Hm & -> & ->).
        exists entry, req, response. auto 10.
      * destruct (no_http_entry_request entry s' d' Hq).
      * discriminate Hr.
  - intros [(E & -> & ->) | (entry & req & response & Hc & Hq & Hn & Hs & Hl & Hm & -> & ->)].
    + unfold run_random_task. rewrite E. reflexivity.
    + rewrite (run_random_task_delegates _ _ _ _ _ Hc).
      unfold delegate_to_run_task. rewrite Hq, run_task_stages. cbn [snd].
      rewrite (fetch_unmapped _ _ _ _ _ Hn Hs Hl Hm). reflexivity.
Qed.

(** X10. An [HTTPException] with status 500 from [POST /task/send] always
    means that no task is loaded: an upstream 500 is answered with a
    mock. *)
Theorem send_500_means_no_tasks G net g d :
  snd (run_random_task G net g) = HTTPException 500 d ->
  TASKS G = [] /\ d = py "No tasks loaded from tasks.json".
Proof.
  intros Hr. destruct (TASKS G) as [| e0 es] eqn:E.
  - unfold run_random_task in Hr. rewrite E in Hr. cbn [snd] in Hr.
    split; congruence.
  - exfalso. destruct (choice_nonempty (TASKS G) g) as (entry & _ & Hc);
      [congruence |].
    rewrite (run_random_task_delegates _ _ _ _ _ Hc) in Hr.
    unfold delegate_to_run_task in Hr.
    destruct (entry_request entry) as [req | s' d' | e] eqn:Hq.
    + destruct (run_task_HTTPException_inv _ _ _ _ _ _ Hr)
        as (response & _ & _ & Hl & _ & Hs & _).
      apply Hl. rewrite <- Hs.
      apply (bool_decide_eq_true_1 (500 ∈ [401; 403; 500; 503])). reflexivity.
    + destruct (no_http_entry_request entry s' d' Hq).
    + discriminate Hr.
Qed.

(** X11. When the upstream call of [POST /task/send] ends in 401, 403,
    500, 503, in another non-200 status with the mock flag on, or in a
    caught exception, the handler returns the mock answer for the task of
    the entry it selected. *)
Theorem send_falls_back G net g entry g' req :
  choice (TASKS G) g = Return (entry, g') ->
  entry_request entry = Return req ->
  falls_back G (net (task_post G req)) = true ->
  exists phrase offset out,
    phrase ∈ MOCK_RESPONSES /\ 10 <= offset <= 50 /\ 50 <= out <= 300 /\
    snd (run_random_task G net g) =
    Return {| model := mock_model;
              output_text := mock_text phrase (task req);
              input_tokens := Some (Z.of_nat (length (split (task req))) + offset);
              output_tokens := Some out |}.
Proof.
  intros Hc Hq Hf. rewrite (run_random_task_delegates _ _ _ _ _ Hc).
  unfold delegate_to_run_task. rewrite Hq.
  destruct (run_task_falls_back G net req g' Hf)
    as (phrase & offset & out & Hin & Ho & Hu & Hr).
  exists phrase, offset, out. rewrite Hr. auto.
Qed.

End Send.

(** * Further properties of the stream *)

Lemma data_message_head (event : pystr) :
  take 1 (data_message event) = py "d".
Proof. reflexivity. Qed.

Lemma data_message_not_terminal (event : pystr) :
  data_message event <> done_message /\ data_message event <> error_message.
Proof.
  split; intros H; apply (f_equal (take 1)) in H;
    rewrite data_message_head in H; vm_compute in H; discriminate H.
Qed.

Lemma well_paced_emit_events (events_sequence : list pystr) (g : rng) (m : pystr) :
  well_paced (emit_events events_sequence g ++ [Yield m]) = true.
Proof.
  revert g. induction events_sequence as [| event rest IH]; intros g;
    [reflexivity |].
  cbn [emit_events next_draw app well_paced]. apply IH.
Qed.

Lemma sleeps_emit_events (events_sequence : list pystr) (g : rng) (m : pystr) :
  sleeps (emit_events events_sequence g ++ [Yield m]) = length events_sequence.
Proof.
  revert g. unfold sleeps.
  induction events_sequence as [| event rest IH]; intros g; [reflexivity |].
  cbn [emit_events next_draw app List.filter length]. rewrite IH. reflexivity.
Qed.

(** X12. Over loaded sequences of text payloads, every completed run of
    the [/stream] generator has sent at least one message; the last one is
    the done or the error message and every one before it is a [data:]
    message, which is never equal to either. *)
Theorem stream_ends_with_one_terminal (G : Globals) (g : rng) (es : list effect) :
  event_generator G g = Return es ->
  exists init final,
    chunks es = init ++ [final] /\
    (final = done_message \/ final = error_message) /\
    Forall (fun m => exists event, m = data_message event) init /\
    (done_message ∉ init) /\ (error_message ∉ init).
Proof.
  assert (Hdata : forall events : list pystr,
    Forall (fun m => exists event, m = data_message event) (map data_message events)
    /\ (done_message ∉ map data_message events)
    /\ (error_message ∉ map data_message events)).
  { intros events. split; [| split].
    - apply Forall_forall. intros m Hm. apply list_elem_of_fmap in Hm as (e & -> & _).
      eauto.
    - intros Hm. apply list_elem_of_fmap in Hm as (e & He & _).
      symmetry in He. exact (proj1 (data_message_not_terminal e) He).
    - intros Hm. apply list_elem_of_fmap in Hm as (e & He & _).
      symmetry in He. exact (proj2 (data_message_not_terminal e) He). }
  unfold event_generator. destruct (STREAM_EVENTS G) as [| s0 ss] eqn:E.
  - intros [= <-]. exists [], error_message.
    split; [reflexivity |]. split; [right; reflexivity |].
    split; [constructor |]. split; apply not_elem_of_nil.
  - destruct (choice_nonempty (s0 :: ss) g) as (events & _ & Hc); [congruence |].
    rewrite Hc. cbn [mbind result_bind]. intros [= <-].
    exists (map data_message events), done_message.
    split.
    { unfold chunks. rewrite omap_app.
      fold (chunks (emit_events events (snd (next_draw g)))).
      rewrite chunks_emit_events. reflexivity. }
    split; [left; reflexivity |]. apply Hdata.
Qed.

Lemma stream_ends_with_one_terminal_witness :
  exists es init final,
    event_generator (Sample.globals false) Sample.draws = Return es /\
    chunks es = init ++ [final] /\
    (final = done_message \/ final = error_message) /\
    Forall (fun m => exists event, m = data_message event) init /\
    (done_message ∉ init) /\ (error_message ∉ init).
Proof.
  eexists.
  destruct (stream_ends_with_one_terminal (Sample.globals false) Sample.draws
              _ eq_refl) as (init & final & H).
  exists init, final. split; [reflexivity | exact H].
Defined.

(** X13. In every run of the [/stream] generator each message but the last
    is followed by exactly one sleep, the run neither starts nor ends with a
    sleep, and so there is one sleep fewer than messages: none at all when
    only the error message is sent. *)
Theorem stream_well_paced (G : Globals) (g : rng) (es : list effect) :
  event_generator G g = Return es ->
  well_paced es = true /\ (sleeps es + 1 = length (chunks es))%nat.
Proof.
  unfold event_generator. destruct (STREAM_EVENTS G) as [| s0 ss] eqn:E.
  - intros [= <-]. split; reflexivity.
  - destruct (choice_nonempty (s0 :: ss) g) as (events & _ & Hc); [congruence |].
    rewrite Hc. cbn [mbind result_bind]. intros [= <-].
    split; [apply well_paced_emit_events |].
    rewrite sleeps_emit_events. unfold chunks. rewrite omap_app.
    fold (chunks (emit_events events (snd (next_draw g)))).
    rewrite chunks_emit_events, length_app, length_map. reflexivity.
Qed.

Lemma stream_well_paced_witness :
  exists es,
    event_generator (Sample.globals false) Sample.draws = Return es /\
    well_paced es = true /\ (sleeps es + 1 = length (chunks es))%nat.
Proof.
  eexists. split; [reflexivity |].
  apply (stream_well_paced (Sample.globals false) Sample.draws). reflexivity.
Defined.

(** * The start of the module *)

Section StartupFacts.

Import Startup.

Variable lower : pystr -> pystr.

(** X14. When the module body runs to its end, the API key in the
    environment was set and not empty, both files held a JSON object, and
    the loaded collections are what the objects hold under ["tasks"] and
    ["events"], the empty list for an absent key. So a missing or empty
    key, a missing or malformed file, or a file whose top level is not an
    object keeps the module from loading. *)
Theorem loaded_module_has_key_and_files (p : Process) (L : Loaded) :
  module_body lower p = inr L ->
  ANTHROPIC_API_KEY L <> [] /\
  env_ANTHROPIC_API_KEY p = Some (ANTHROPIC_API_KEY L) /\
  exists dt de,
    tasks_json p = Parsed (JObj dt) /\
    stream_events_json p = Parsed (JObj de) /\
    TASKS L = match lookup_key (py "tasks") dt with Some v => v | None => JArr [] end /\
    STREAM_EVENTS L =
      match lookup_key (py "events") de with Some v => v | None => JArr [] end.
Proof.
  unfold module_body, load_tasks, load_stream_events, load.
  destruct (tasks_json p) as [| | [| | | | | |dt]]; try discriminate.
  destruct (stream_events_json p) as [| | [| | | | | |de]]; try discriminate.
  destruct (env_ANTHROPIC_API_KEY p) as [[| c key] |]; try discriminate.
  intros [= <-]. cbn [ANTHROPIC_API_KEY TASKS STREAM_EVENTS].
  split; [discriminate |]. split; [reflexivity |].
  exists dt, de. auto.
Qed.

(** X15. Where [str.lower] acts on ASCII text as it does (upper-case
    letters to lower case, the rest unchanged), a loaded module has the
    mock flag on exactly when USE_MOCK is set to ["true"] in some mix of
    upper and lower case; any other ASCII value, and an unset variable,
    leave it off. *)
Theorem use_mock_reads_true_only (p : Process) (L : Loaded) :
  (forall s, is_ascii s -> lower s = map ascii_lower s) ->
  module_body lower p = inr L ->
  match env_USE_MOCK p with
  | Some v => is_ascii v -> (USE_MOCK L = true <-> map ascii_lower v = py "true")
  | None => USE_MOCK L = false
  end.
Proof.
  intros Hlower. unfold module_body.
  destruct (load_tasks p); try discriminate.
  destruct (load_stream_events p); try discriminate.
  destruct (env_ANTHROPIC_API_KEY p) as [[| c key] |]; try discriminate.
  intros [= <-]. cbn [USE_MOCK].
  destruct (env_USE_MOCK p) as [v |].
  - intros Hv. rewrite (Hlower v Hv). apply bool_decide_eq_true.
  - apply bool_decide_eq_false. rewrite Hlower.
    + vm_compute. discriminate.
    + unfold is_ascii. apply Forall_forall. intros c' Hc'.
      vm_compute in Hc'. repeat (apply elem_of_cons in Hc' as [-> | Hc']; [reflexivity |]).
      apply elem_of_nil in Hc'. contradiction.
Qed.

End StartupFacts.

(** * The health check *)

Section HealthCheckFacts.

Import HealthCheck.

Variable srv : server.

(** X16. The task check passes exactly when [POST /task/send] is answered
    with status 200 and a body that is a JSON object; it asks for no field
    of that object, so [{}] passes, while a 200 with a JSON list, a body
    that is not JSON, any other status, and any exception fail. *)
Theorem task_check_passes_iff :
  passed (test_random_task srv) = true <->
  exists response d,
    srv (POST RANDOM_TASK_ENDPOINT 120 (JObj [])) = inl response /\
    status_code response = 200 /\
    json_of response = Some (JObj d).
Proof.
  unfold test_random_task.
  destruct (srv (POST RANDOM_TASK_ENDPOINT 120 (JObj []))) as [response | f].
  - destruct (status_code response =? 200) eqn:Hs.
    + apply Z.eqb_eq in Hs.
      destruct (json_of response) as [[| | | | | |d] |] eqn:Hj;
        cbn [mbind result_bind py_get passed];
        try (split; [discriminate |];
             intros (r' & d' & [= <-] & _ & Hj'); rewrite Hj in Hj';
             discriminate Hj').
      split; [| reflexivity]. intros _. exists response, d. auto.
    + cbn [passed]. split; [discriminate |].
      intros (r' & d' & [= <-] & Hs' & _). rewrite Hs' in Hs. discriminate Hs.
  - destruct f; cbn [passed]; split; try discriminate;
      intros (r' & d' & Hr & _); discriminate Hr.
Qed.

(** X17. The stream check passes exactly when [GET /stream] is answered
    with status 200 and reading its lines does not raise: the number of
    [data:] lines it counts, zero included, has no part in the result. *)
Theorem stream_check_passes_iff :
  passed (test_stream srv) = true <->
  exists response,
    srv (GET STREAM_ENDPOINT 30 true) = inl response /\
    status_code response = 200 /\
    lines_raise response = false.
Proof.
  unfold test_stream.
  destruct (srv (GET STREAM_ENDPOINT 30 true)) as [response | f].
  - destruct (status_code response =? 200) eqn:Hs.
    + apply Z.eqb_eq in Hs. destruct (lines_raise response) eqn:Hl;
        cbn [passed].
      * split; [discriminate |].
        intros (r' & [= <-] & _ & Hl'). rewrite Hl in Hl'. discriminate Hl'.
      * split; [| reflexivity]. intros _. exists response. auto.
    + cbn [passed]. split; [discriminate |].
      intros (r' & [= <-] & Hs' & _). rewrite Hs' in Hs. discriminate Hs.
  - cbn [passed]. split; [discriminate |]. intros (r' & Hr & _). discriminate Hr.
Qed.

(** X18. Each check makes its one call and writes two records, the second
    of which is an error record exactly when the check fails. *)
Theorem checks_log_error_iff_failed :
  (calls (test_random_task srv) = [POST RANDOM_TASK_ENDPOINT 120 (JObj [])] /\
   exists r, log (test_random_task srv) = [TaskStarting; r] /\
             is_error r = negb (passed (test_random_task srv))) /\
  (calls (test_stream srv) = [GET STREAM_ENDPOINT 30 true] /\
   exists r, log (test_stream srv) = [StreamTesting; r] /\
             is_error r = negb (passed (test_stream srv))).
Proof.
  split.
  - unfold test_random_task.
    destruct (srv (POST RANDOM_TASK_ENDPOINT 120 (JObj []))) as [response | []];
      [| split; [reflexivity | eexists; split; reflexivity] ..].
    destruct (status_code response =? 200);
      [| split; [reflexivity | eexists; split; reflexivity]].
    destruct (json_of response) as [[] |]; cbn [mbind result_bind py_get];
      (split; [reflexivity | eexists; split; reflexivity]).
  - unfold test_stream.
    destruct (srv (GET STREAM_ENDPOINT 30 true)) as [response | f];
      [| split; [reflexivity | eexists; split; reflexivity]].
    destruct (status_code response =? 200), (lines_raise response);
      (split; [reflexivity | eexists; split; reflexivity]).
Qed.

(** X19. The full health check always runs both checks, the task check
    first, whatever the first one gives; given a non-empty time stamp it
    passes exactly when both pass, and its last record is an error record
    exactly when it fails. *)
Theorem run_health_check_is_both (now : pystr) :
  now <> [] ->
  calls (run_health_check srv now)
  = [POST RANDOM_TASK_ENDPOINT 120 (JObj []); GET STREAM_ENDPOINT 30 true] /\
  passed (run_health_check srv now)
  = passed (test_random_task srv) && passed (test_stream srv) /\
  exists records r,
    log (run_health_check srv now) = records ++ [r] /\
    is_error r = negb (passed (run_health_check srv now)).
Proof.
  intros Hnow.
  destruct checks_log_error_iff_failed as [[Hc1 _] [Hc2 _]].
  unfold run_health_check. cbn [calls passed log]. rewrite Hc1, Hc2.
  split; [reflexivity |].
  assert (Hall : forallb truthy
            [JStr now; JBool (passed (test_random_task srv));
             JBool (passed (test_stream srv))]
          = passed (test_random_task srv) && passed (test_stream srv)).
  { cbn [forallb truthy]. destruct now; [congruence |].
    rewrite andb_true_r. reflexivity. }
  rewrite Hall. split; [reflexivity |].
  eexists. eexists. rewrite !app_assoc. split; [reflexivity |].
  destruct (passed (test_random_task srv) && passed (test_stream srv)); reflexivity.
Qed.

End HealthCheckFacts.


(** * The further properties at concrete inputs *)

Lemma send_posts_selected_task_witness :
  fst (run_random_task (V := strict_validator) (Sample.globals false)
         (Sample.answers (inr ConnectError)) Sample.draws) =
  [ {| base_url := py "https://api.anthropic.com";
       path := py "/v1/messages";
       authorization := py "Bearer " ++ ANTHROPIC_API_KEY (Sample.globals false);
       post_json :=
         {| payload_model := py "claude-3-opus-20240229";
            payload_max_tokens := 1024;
            payload_system :=
              entry_system
                [ (py "task", JStr (py "Write a binary search"));
                  (py "system_prompt", JStr (py "You are a patient teacher")) ];
            payload_messages := [(py "user", py "Write a binary search")] |} |} ].
Proof.
  apply (send_posts_selected_task (V := strict_validator) (Sample.globals false)
           (Sample.answers (inr ConnectError)) Sample.draws
           [ (py "task", JStr (py "Write a binary search"));
             (py "system_prompt", JStr (py "You are a patient teacher")) ]
           (snd (next_draw Sample.draws)) (py "Write a binary search")).
  - reflexivity.
  - reflexivity.
  - vm_compute. exact I.
Defined.

Lemma send_entry_without_task_witness :
  run_random_task (V := strict_validator) Fixture.untitled
    (Sample.answers (inl Sample.genuine)) Sample.draws = ([], Raise KeyError).
Proof.
  apply (send_entry_without_task (V := strict_validator) Fixture.untitled
           (Sample.answers (inl Sample.genuine)) Sample.draws
           [ (py "system_prompt", JStr (py "You are a patient teacher")) ]
           (snd (next_draw Sample.draws))).
  - reflexivity.
  - reflexivity.
Defined.

Lemma send_500_means_no_tasks_witness :
  TASKS Sample.no_data = [] /\
  py "No tasks loaded from tasks.json" = py "No tasks loaded from tasks.json".
Proof.
  apply (send_500_means_no_tasks (V := strict_validator) Sample.no_data
           (Sample.answers (inl (Sample.status 500))) Sample.draws).
  reflexivity.
Defined.

Lemma send_falls_back_witness :
  exists phrase offset out,
    phrase ∈ MOCK_RESPONSES /\ 10 <= offset <= 50 /\ 50 <= out <= 300 /\
    snd (run_random_task (V := strict_validator) (Sample.globals false)
           (Sample.answers (inl (Sample.status 500))) Sample.draws) =
    Return {| model := mock_model;
              output_text := mock_text phrase (py "Write a binary search");
              input_tokens :=
                Some (Z.of_nat (length (split (py "Write a binary search"))) + offset);
              output_tokens := Some out |}.
Proof.
  apply (send_falls_back (V := strict_validator) (Sample.globals false)
           (Sample.answers (inl (Sample.status 500))) Sample.draws
           [ (py "task", JStr (py "Write a binary search"));
             (py "system_prompt", JStr (py "You are a patient teacher")) ]
           (snd (next_draw Sample.draws))
           {| task := py "Write a binary search";
              system_prompt := Some (py "You are a patient teacher");
              max_tokens := 1024 |}).
  - reflexivity.
  - reflexivity.
  - reflexivity.
Defined.

Lemma loaded_module_has_key_and_files_witness :
  exists L,
    Startup.module_body Fixture.lower Fixture.process = inr L /\
    Startup.ANTHROPIC_API_KEY L <> [] /\
    Startup.env_ANTHROPIC_API_KEY Fixture.process
    = Some (Startup.ANTHROPIC_API_KEY L) /\
    exists dt de,
      Startup.tasks_json Fixture.process = Startup.Parsed (JObj dt) /\
      Startup.stream_events_json Fixture.process = Startup.Parsed (JObj de) /\
      Startup.TASKS L
      = match lookup_key (py "tasks") dt with Some v => v | None => JArr [] end /\
      Startup.STREAM_EVENTS L
      = match lookup_key (py "events") de with Some v => v | None => JArr [] end.
Proof.
  eexists. split; [reflexivity |].
  apply (loaded_module_has_key_and_files Fixture.lower Fixture.process).
  reflexivity.
Defined.

Lemma fixture_lower_ascii (s : pystr) :
  Startup.is_ascii s -> Fixture.lower s = map Startup.ascii_lower s.
Proof. reflexivity. Qed.

Lemma use_mock_reads_true_only_witness :
  exists L,
    Startup.module_body Fixture.lower Fixture.process = inr L /\
    (Startup.is_ascii (py "True") ->
     (Startup.USE_MOCK L = true <-> map Startup.ascii_lower (py "True") = py "true")).
Proof.
  eexists. split; [reflexivity |].
  apply (use_mock_reads_true_only Fixture.lower Fixture.process _
           fixture_lower_ascii eq_refl).
Defined.

Lemma run_health_check_is_both_witness :
  HealthCheck.calls
    (HealthCheck.run_health_check Fixture.hollow (py "2024-05-01T12:00:00"))
  = [ HealthCheck.POST HealthCheck.RANDOM_TASK_ENDPOINT 120 (JObj []);
      HealthCheck.GET HealthCheck.STREAM_ENDPOINT 30 true ] /\
  HealthCheck.passed
    (HealthCheck.run_health_check Fixture.hollow (py "2024-05-01T12:00:00"))
  = HealthCheck.passed (HealthCheck.test_random_task Fixture.hollow)
    && HealthCheck.passed (HealthCheck.test_stream Fixture.hollow) /\
  exists records r,
    HealthCheck.log
      (HealthCheck.run_health_check Fixture.hollow (py "2024-05-01T12:00:00"))
    = records ++ [r] /\
    HealthCheck.is_error r
    = negb (HealthCheck.passed
              (HealthCheck.run_health_check Fixture.hollow
                 (py "2024-05-01T12:00:00"))).
Proof.
  apply (run_health_check_is_both Fixture.hollow (py "2024-05-01T12:00:00")).
  discriminate.
Defined.

(** A hollow server passes both checks: no field, no event. *)
Example hollow_server_passes :
  HealthCheck.log (HealthCheck.run_health_check Fixture.hollow (py "2024-05-01T12:00:00"))
  = [ HealthCheck.Rule; HealthCheck.Started; HealthCheck.Rule;
      HealthCheck.TaskStarting;
      HealthCheck.TaskPassed 200 JNull (JInt 0) (JInt 0);
      HealthCheck.StreamTesting; HealthCheck.StreamPassed 0;
      HealthCheck.AllPassed ].
Proof. reflexivity. Qed.

Example use_mock_values :
  map (fun v =>
         bool_decide (Fixture.lower v = py "true"))
      [py "true"; py "TRUE"; py "True"; py "1"; py "yes"; py "on"; py " true"; []]
  = [true; true; true; false; false; false; false; false].
Proof. vm_compute. reflexivity. Qed.
